(** * Telegraf dispatch core: normalisation, middleware composition,
      webhook answers and the polling loop (lib/telegraf.js) *)

From Stdlib Require Import List String Ascii ZArith Bool Lia PeanoNat.
From Stdlib Require Import DecimalString.
Import ListNotations.
Local Open Scope string_scope.

Set Warnings "-register-all".

(** ** JavaScript values

    Updates are JSON documents, so the values that travel through the
    dispatcher are JSON values together with [undefined] (the result of
    reading a missing member) and [NaN] (the result of adding a
    non-number).  Numbers are the integers a double holds: update ids,
    chat ids and status codes are integral.  Objects keep their keys in
    insertion order. *)
Module Js.

Inductive value : Type :=
| VUndefined
| VNull
| VBool (b : bool)
| VNum (n : Z)
| VNaN
| VStr (s : string)
| VArr (items : list value)
| VObj (members : list (string * value)).

Definition obj := list (string * value).

(** [o[k]] for an object given by its own members. *)
Fixpoint lookup (o : obj) (k : string) : value :=
  match o with
  | [] => VUndefined
  | (k', v) :: rest => if String.eqb k' k then v else lookup rest k
  end.

(** [o[k] = v]: an existing key keeps its place, a new one goes last. *)
Fixpoint assign (o : obj) (k : string) (v : value) : obj :=
  match o with
  | [] => [(k, v)]
  | (k', v') :: rest =>
      if String.eqb k' k then (k, v) :: rest else (k', v') :: assign rest k v
  end.

(** [delete o[k]]. *)
Fixpoint remove (o : obj) (k : string) : obj :=
  match o with
  | [] => []
  | (k', v') :: rest =>
      if String.eqb k' k then remove rest k else (k', v') :: remove rest k
  end.

(** [Object.keys(o)]. *)
Definition keys (o : obj) : list string := map fst o.

(** Member read [v[k]] on a value that is neither [null] nor [undefined]
    (those two make the read throw, which the callers below handle).
    Only own members of objects are modelled: the names the program reads
    are Telegram field names, never members inherited from a prototype,
    array indices or [length]. *)
Definition get (v : value) (k : string) : value :=
  match v with
  | VObj o => lookup o k
  | _ => VUndefined
  end.

Definition nullish (v : value) : bool :=
  match v with
  | VUndefined | VNull => true
  | _ => false
  end.

(** ToBoolean. *)
Definition truthy (v : value) : bool :=
  match v with
  | VUndefined | VNull | VNaN => false
  | VBool b => b
  | VNum n => negb (n =? 0)%Z
  | VStr s => negb (String.eqb s EmptyString)
  | VArr _ | VObj _ => true
  end.

Definition falsy (v : value) : bool := negb (truthy v).

(** [a && b] and [a || b] with [b] read only when needed; [b] is pure
    here, so it is passed evaluated. *)
Definition and_ (a b : value) : value := if truthy a then b else a.
Definition or_ (a b : value) : value := if truthy a then a else b.

(** ToNumber on primitives that are not strings. *)
Definition to_number (v : value) : option Z :=
  match v with
  | VNull => Some 0%Z
  | VBool b => Some (if b then 1 else 0)%Z
  | VNum n => Some n
  | _ => None
  end.

(** Operands that make [+] a concatenation: strings, and objects and
    arrays, whose primitive is a string. *)
Definition concatenates (v : value) : bool :=
  match v with
  | VStr _ | VArr _ | VObj _ => true
  | _ => false
  end.

(** Thrown values. *)
Inductive exn : Type :=
| Error (message : string)
| TypeError
| SyntaxError (message : string)
| FetchError (message : string)
| Thrown (v : value).

End Js.
Import Js.

(** ** The world a dispatch runs in *)

(** What a recording handler leaves behind. *)
Inductive Mark : Type :=
| Enter (name : string)
| Exit (name : string).

(** [console.error] output, one entry per call. *)
Inductive Line : Type :=
| Blank
| StackOf (err : exn)
| NetworkErrorLine (err : exn)
| PollingErrorLine (err : exn).

(** [http.ServerResponse], as far as the program touches it. *)
Record ServerResponse : Type := {
  statusCode : Z;
  headers : list (string * string);
  written : list string;
  finished : bool
}.

Definition fresh_response : ServerResponse :=
  {| statusCode := 200; headers := []; written := []; finished := false |}.

(** What [form.append] was called with. *)
Inductive FormPart : Type :=
| Field (key : string) (v : value)
| BufferPart (key : string) (data knownLength : value)
| StreamPart (key : string) (path knownLength : value).

Definition part_key (part : FormPart) : string :=
  match part with
  | Field key _ | BufferPart key _ _ | StreamPart key _ _ => key
  end.

(** The [body] of a fetch: the JSON text of the options, or the form
    built from them. *)
Inductive Body : Type :=
| JsonText (text : string)
| FormData (parts : list FormPart).

(** One outgoing [fetch]: the URL and, of the payload, the headers and
    the body; the method is always POST. *)
Record FetchCall : Type := {
  fetch_url : string;
  fetch_headers : list (string * string);
  fetch_body : Body
}.

Record World : Type := {
  polling_offset : value;
  polling_started : bool;
  polling_timeout : value;
  polling_limit : value;
  res : ServerResponse;
  network : list FetchCall;
  console : list Line;
  reported : list exn;
  clock : Z;
  trace : list Mark
}.

Definition set_offset (v : value) (w : World) : World :=
  {| polling_offset := v; polling_started := polling_started w;
     polling_timeout := polling_timeout w; polling_limit := polling_limit w;
     res := res w; network := network w; console := console w;
     reported := reported w; clock := clock w; trace := trace w |}.

Definition set_started (b : bool) (w : World) : World :=
  {| polling_offset := polling_offset w; polling_started := b;
     polling_timeout := polling_timeout w; polling_limit := polling_limit w;
     res := res w; network := network w; console := console w;
     reported := reported w; clock := clock w; trace := trace w |}.

Definition set_res (r : ServerResponse) (w : World) : World :=
  {| polling_offset := polling_offset w; polling_started := polling_started w;
     polling_timeout := polling_timeout w; polling_limit := polling_limit w;
     res := r; network := network w; console := console w;
     reported := reported w; clock := clock w; trace := trace w |}.

Definition set_network (n : list FetchCall) (w : World) : World :=
  {| polling_offset := polling_offset w; polling_started := polling_started w;
     polling_timeout := polling_timeout w; polling_limit := polling_limit w;
     res := res w; network := n; console := console w;
     reported := reported w; clock := clock w; trace := trace w |}.

Definition set_console (c : list Line) (w : World) : World :=
  {| polling_offset := polling_offset w; polling_started := polling_started w;
     polling_timeout := polling_timeout w; polling_limit := polling_limit w;
     res := res w; network := network w; console := c;
     reported := reported w; clock := clock w; trace := trace w |}.

Definition set_reported (r : list exn) (w : World) : World :=
  {| polling_offset := polling_offset w; polling_started := polling_started w;
     polling_timeout := polling_timeout w; polling_limit := polling_limit w;
     res := res w; network := network w; console := console w;
     reported := r; clock := clock w; trace := trace w |}.

Definition set_clock (c : Z) (w : World) : World :=
  {| polling_offset := polling_offset w; polling_started := polling_started w;
     polling_timeout := polling_timeout w; polling_limit := polling_limit w;
     res := res w; network := network w; console := console w;
     reported := reported w; clock := c; trace := trace w |}.

Definition set_trace (t : list Mark) (w : World) : World :=
  {| polling_offset := polling_offset w; polling_started := polling_started w;
     polling_timeout := polling_timeout w; polling_limit := polling_limit w;
     res := res w; network := network w; console := console w;
     reported := reported w; clock := clock w; trace := t |}.

(** The state of [new Telegraf(token)] before anything ran. *)
Definition initial_world : World :=
  {| polling_offset := VNum 0; polling_started := false;
     polling_timeout := VUndefined; polling_limit := VUndefined;
     res := fresh_response; network := []; console := [];
     reported := []; clock := 0; trace := [] |}.

(** ** Computations: state passing with exceptions

    A computation either returns or throws, and in both cases leaves a
    world behind: what a handler did before it threw stays done. *)
Inductive Outcome (A : Type) : Type :=
| Ok (a : A)
| Err (e : exn).
Arguments Ok {A} a.
Arguments Err {A} e.

Definition M (A : Type) : Type := World -> Outcome A * World.

Definition ret {A} (a : A) : M A := fun w => (Ok a, w).

Definition bind {A B} (m : M A) (f : A -> M B) : M B :=
  fun w =>
    match m w with
    | (Ok a, w') => f a w'
    | (Err e, w') => (Err e, w')
    end.

Definition throw {A} (e : exn) : M A := fun w => (Err e, w).

(** [try { m } catch (e) { h(e) }]. *)
Definition try_catch {A} (m : M A) (h : exn -> M A) : M A :=
  fun w =>
    match m w with
    | (Ok a, w') => (Ok a, w')
    | (Err e, w') => h e w'
    end.

Definition gets {A} (f : World -> A) : M A := fun w => (Ok (f w), w).
Definition modify (f : World -> World) : M unit := fun w => (Ok tt, f w).

Declare Scope js_scope.
Delimit Scope js_scope with js.
Notation "x <- m ;; k" := (bind m (fun x => k))
  (at level 61, m at next level, right associativity) : js_scope.
Notation "m ;; k" := (bind m (fun _ => k))
  (at level 61, right associativity) : js_scope.
Local Open Scope js_scope.

(** A promise, seen once it has settled.  A computation that returns a
    promise is followed to the settlement of that promise, with nothing
    else running in between: one remote call, the dispatch of one update.
    A synchronous [throw] stays an [Err].  Dispatches that run at the same
    time are the business of the polling loop, below. *)
Inductive Promise (A : Type) : Type :=
| Resolved (a : A)
| Rejected (e : exn).
Arguments Resolved {A} a.
Arguments Rejected {A} e.

(** [yield p] inside a generator driven by co: the value of a fulfilled
    promise, or its rejection thrown at the [yield]. *)
Definition await {A} (p : M (Promise A)) : M A :=
  r <- p ;;
  match r with
  | Resolved a => ret a
  | Rejected e => throw e
  end.

Definition console_error (l : Line) : M unit :=
  modify (fun w => set_console (console w ++ [l]) w).

(** Membership in a list that is written out, case by case. *)
Ltac each_member H :=
  simpl in H;
  repeat (destruct H as [<- | H]; [reflexivity|]);
  destruct H.

(** ** The program *)
Section Program.

(** [constants.updateTypes] and [constants.messageSubTypes]: the catalogs
    of lib/constants.js, in their order. *)
Variable updateTypes : list string.
Variable messageSubTypes : list string.

(** Built-ins of the platform: [JSON.parse], [JSON.stringify], the string
    conversion of template literals and of [+], and the remote side of
    [fetch], which answers the [n]-th call of a run. *)
Variable JSON_parse : string -> exn + value.
Variable JSON_stringify : value -> string.
Variable ToString : value -> string.

Inductive Reply : Type :=
| Unreachable (err : exn)
| Json (data : value).

Variable remote : nat -> FetchCall -> Reply.

(** The sum of two doubles where it is not the sum of the integers: from
    2^53 on a double no longer holds every integer, and the platform
    rounds. *)
Variable double_add : Z -> Z -> value.

(** The error the platform throws at [writeHead] on a response whose head
    has gone out. *)
Variable headers_sent : exn.

(** The platform side of [buildFormData]: [Buffer.isBuffer], the
    [length] of a buffer, [fs.existsSync] and the [size] of
    [fs.statSync]. *)
Variable Buffer_isBuffer : value -> bool.
Variable Buffer_length : value -> value.
Variable fs_existsSync : value -> bool.
Variable fs_size : value -> value.

(** A sum of integers that a double holds exactly. *)
Definition is_exact (z : Z) : bool := (Z.abs z <=? 2 ^ 53)%Z.

(** [a + b]: a concatenation as soon as one operand's primitive is a
    string, the sum of the numbers otherwise, [NaN] when one of them is
    not a number.  The sum is the sum of the integers as long as a double
    holds it exactly, and what the platform rounds it to beyond. *)
Definition add (a b : value) : value :=
  if concatenates a || concatenates b
  then VStr (ToString a ++ ToString b)
  else match to_number a, to_number b with
       | Some x, Some y => if is_exact (x + y) then VNum (x + y)
                           else double_add x y
       | _, _ => VNaN
       end.

(** *** The application object *)

(** The receiver of a handler: what [handleUpdate] puts on [context].
    [chat] is the conversation id the senders are bound to (bound only
    when truthy); [via_sink] tells whether their [sendRequest] is the
    proxy that passes the webhook response on.  The per-event [state]
    object and the accessor named after the update type are not part of
    the model. *)
Record Context : Type := {
  eventType : value;
  eventSubType : value;
  payload_of : value;
  chat : value;
  via_sink : bool
}.

(** A generator object is a suspended computation, run when co is
    handed it by [yield next] or when [yield * next] delegates to it; a
    middleware is a generator function of [next], called on a receiver.
    A generator object runs once: handlers use [next] at most once. *)
Definition Generator : Type := M unit.
Definition Middleware : Type := Context -> Generator -> Generator.

Record Telegraf : Type := {
  token : value;
  webHookAnswer : bool;
  apiRoot : string;
  middleware : list Middleware;
  onError : exn -> M unit
}.

(** [function * noop () {}] *)
Definition noop : Generator := ret tt.

(** [Telegraf.compose]: the [while (i--)] loop wraps [next] by the
    handlers from the last to the first; [yield * next] then runs the
    outermost generator in place. *)
Definition compose (middleware : list Middleware) (this : Context)
    (next : option Generator) : Generator :=
  let next := match next with Some next => next | None => noop end in
  let next := fold_left (fun next mw => mw this next) (rev middleware) next in
  next.

(** A composed chain used where a middleware is expected. *)
Definition composed (middleware : list Middleware) : Middleware :=
  fun this next => compose middleware this (Some next).

(** [eventTypes.indexOf(v) !== -1] *)
Definition indexOf_found (eventTypes : list string) (v : value) : bool :=
  match v with
  | VStr s => existsb (String.eqb s) eventTypes
  | _ => false
  end.

(** [Telegraf.handler]: [yield Telegraf.compose(fns)] hands co a
    generator function, which co calls on the same receiver without
    [next]; [yield next] runs the continuation. *)
Definition handler (eventTypes : list string) (fns : list Middleware)
    : Middleware :=
  fun this next =>
    (if indexOf_found eventTypes (eventType this)
        || indexOf_found eventTypes (eventSubType this)
     then compose fns this None
     else ret tt) ;;
    next.

(** [telegraf.use] and [telegraf.on] *)
Definition use (fn : Middleware) (this : Telegraf) : Telegraf :=
  {| token := token this; webHookAnswer := webHookAnswer this;
     apiRoot := apiRoot this; middleware := middleware this ++ [fn];
     onError := onError this |}.

Definition on (eventTypes : list string) (fns : list Middleware)
    (this : Telegraf) : Telegraf :=
  use (handler eventTypes [composed fns]) this.

(** The default [telegraf.onError]: print the trace between two blank
    lines, then throw the error again. *)
Definition default_onError (err : exn) : M unit :=
  console_error Blank ;;
  console_error (StackOf err) ;;
  console_error Blank ;;
  throw err.

(** A call of the configured handler; [reported] keeps the errors it was
    called with. *)
Definition call_onError (this : Telegraf) (err : exn) : M unit :=
  modify (fun w => set_reported (reported w ++ [err]) w) ;;
  onError this err.

(** *** Remote invocation *)

Definition setHeader (name val : string) : M unit :=
  modify (fun w =>
    set_res {| statusCode := statusCode (res w);
               headers := headers (res w) ++ [(name, val)];
               written := written (res w);
               finished := finished (res w) |} w).

(** [res.statusCode = code] *)
Definition set_statusCode (code : Z) : M unit :=
  modify (fun w =>
    set_res {| statusCode := code;
               headers := headers (res w);
               written := written (res w);
               finished := finished (res w) |} w).

(** [res.writeHead(code)]: the head of a response goes out once, at the
    latest when the response is ended; on an ended response the platform
    throws and what was sent stays. *)
Definition writeHead (code : Z) : M unit :=
  sink <- gets res ;;
  if finished sink then throw headers_sent
  else set_statusCode code.

(** [response.end(data)] and [response.end()]: an open response gets the
    data, if any, and is finished; a finished one stays as it is. *)
Definition end_ (data : option string) : M unit :=
  modify (fun w =>
    if finished (res w) then w
    else
      set_res {| statusCode := statusCode (res w);
                 headers := headers (res w);
                 written := written (res w)
                            ++ match data with Some d => [d] | None => [] end;
                 finished := true |} w).

(** [fetch(url, payload)] followed by [res.json()]: the call is logged and
    the remote side answers it. *)
Definition fetch (call : FetchCall) : M Reply :=
  fun w => (Ok (remote (List.length (network w)) call),
            set_network (network w ++ [call]) w).

(** [Object.assign({}, options)] *)
Definition assign_empty (options : option obj) : obj :=
  match options with
  | Some o => o
  | None => []
  end.

Definition isFileRequest (options : obj) : bool :=
  (0 <? List.length (filter
                  (fun x => truthy (and_ (lookup options x)
                                         (get (lookup options x) "source")))
                  (keys options)))%nat.

(** *** Multipart bodies *)

(** [typeof v === 'object'] for a value that is not null. *)
Definition is_object (v : value) : bool :=
  match v with
  | VArr _ | VObj _ => true
  | _ => false
  end.

(** [typeof v === 'string'] *)
Definition is_string (v : value) : bool :=
  match v with
  | VStr _ => true
  | _ => false
  end.

(** The first statement of [buildFormData]: a [reply_markup] that is not
    a string is replaced by its JSON text. *)
Definition stringify_markup (options : obj) : obj :=
  if truthy (lookup options "reply_markup")
     && negb (is_string (lookup options "reply_markup"))
  then assign options "reply_markup"
         (VStr (JSON_stringify (lookup options "reply_markup")))
  else options.

(** The body of the [forEach] of [buildFormData], for one key. *)
Definition form_parts (options : obj) (key : string) : list FormPart :=
  let value := lookup options key in
  if nullish value then []
  else if is_object value then
    let data := get value "source" in
    if truthy data then
      if Buffer_isBuffer data
      then [BufferPart key data (Buffer_length data)]
      else if fs_existsSync data
           then [StreamPart key data (fs_size data)]
           else [Field key data]
    else []
  else
    match value with
    | VBool b => [Field key (VStr (if b then "true" else "false"))]
    | _ => [Field key value]
    end.

(** [telegraf.buildFormData(options)]: the parts appended to the form, in
    order. *)
Definition buildFormData (options : obj) : list FormPart :=
  let options := stringify_markup options in
  flat_map (form_parts options) (keys options).

(** *** Remote calls *)

(** [telegraf.sendRequest(method, options, response)]; [response] tells
    whether the response of the webhook request was passed. *)
Definition sendRequest (this : Telegraf) (method : string)
    (options : option obj) (response : bool) : M (Promise value) :=
  let options := assign_empty options in
  let isFile := isFileRequest options in
  sink <- gets res ;;
  if response && negb (finished sink) && negb isFile then
    let options := assign options "method" (VStr method) in
    setHeader "Content-Type" "application/json" ;;
    end_ (Some (JSON_stringify (VObj options))) ;;
    ret (Resolved VUndefined)
  else if negb (truthy (token this)) then
    throw (Error "Telegram Bot Token is required")
  else
    let payload_headers :=
      if isFile then [] else [("Content-Type", "application/json")] in
    let payload_body :=
      if isFile then FormData (buildFormData options)
      else JsonText (JSON_stringify (VObj options)) in
    reply <- fetch {| fetch_url := apiRoot this ++ "/bot"
                                   ++ ToString (token this) ++ "/" ++ method;
                      fetch_headers := payload_headers;
                      fetch_body := payload_body |} ;;
    match reply with
    | Unreachable err => ret (Rejected err)
    | Json data =>
        if nullish data then ret (Rejected TypeError)
        else if truthy (get data "ok") then ret (Resolved (get data "result"))
        else ret (Rejected (Error (ToString (get data "error_code") ++ ": "
                                   ++ ToString (get data "description"))))
    end.

Definition getUpdates (this : Telegraf) (timeout limit offset : value)
    : M (Promise value) :=
  sendRequest this
    ("getUpdates?offset=" ++ ToString offset ++ "&limit=" ++ ToString limit
     ++ "&timeout=" ++ ToString timeout)
    None false.

(** [telegraf.sendMessage], one of the senders bound on the context. *)
Definition sendMessage (this : Telegraf) (response : bool)
    (chatId text : value) (extra : obj) : M (Promise value) :=
  let options := [("chat_id", chatId); ("text", text)] in
  sendRequest this "sendMessage"
    (Some (fold_left (fun o kv => assign o (fst kv) (snd kv)) extra options))
    response.

(** *** Normalisation *)

Record Update : Type := {
  payload : value;
  type : value;
  subType : value
}.

Definition extractUpdate (update : value) : exn + Update :=
  if nullish update then inl TypeError
  else
    let result := {| payload := VUndefined; type := VUndefined;
                     subType := VUndefined |} in
    let result :=
      fold_left
        (fun result key =>
           if truthy (get update key)
           then {| payload := get update key; type := VStr key;
                   subType := subType result |}
           else result)
        updateTypes result in
    let result :=
      if truthy (get update "message")
      then fold_left
             (fun result messageType =>
                if truthy (get (get update "message") messageType)
                then {| payload := payload result; type := type result;
                        subType := VStr messageType |}
                else result)
             messageSubTypes result
      else result in
    inr result.

(** *** Dispatch *)

(** Modelled from the spec: the [run] of the co-ware container (the
    module co-ware is a dependency, not part of lib/).  It runs the
    registered generator functions as one chain on the context; an error
    escaping the chain is delegated to the listener registered with
    [on('error', ...)], and the returned promise is rejected when that
    listener throws again and fulfilled otherwise. *)
Definition ware_run (this : Telegraf) (context : Context)
    (fns : list Middleware) : M (Promise unit) :=
  fun w =>
    match compose fns context None w with
    | (Ok _, w') => (Ok (Resolved tt), w')
    | (Err e, w') =>
        match call_onError this e w' with
        | (Ok _, w'') => (Ok (Resolved tt), w'')
        | (Err e', w'') => (Ok (Rejected e'), w'')
        end
    end.

(** [promise.then(f)] for a settled promise and a callback that does not
    throw. *)
Definition then_ {A} (p : Promise A) (f : A -> M unit) : M (Promise unit) :=
  match p with
  | Resolved a => f a ;; ret (Resolved tt)
  | Rejected e => ret (Rejected e)
  end.

(** The receiver built by [handleUpdate] for a normalised update. *)
Definition build_context (this : Telegraf) (update : Update)
    (webHookResponse : bool) : Context :=
  let proxy := webHookAnswer this && webHookResponse in
  let payload := payload update in
  let chatId :=
    or_ (and_ (get payload "chat") (get (get payload "chat") "id"))
        (and_ (get payload "message")
              (and_ (get (get payload "message") "chat")
                    (get (get (get payload "message") "chat") "id"))) in
  {| eventType := type update;
     eventSubType := subType update;
     payload_of := payload;
     chat := chatId;
     via_sink := proxy |}.

Definition handleUpdate (this : Telegraf) (rawUpdate : value)
    (webHookResponse : bool) : M (Promise unit) :=
  match extractUpdate rawUpdate with
  | inl e => throw e
  | inr update =>
      if negb (truthy (type update)) then throw (Error "Undefined update type")
      else
        let context := build_context this update webHookResponse in
        ran <- ware_run this context [composed (middleware this)] ;;
        then_ ran (fun _ =>
          modify (set_offset (add (get rawUpdate "update_id") (VNum 1))))
  end.

(** *** The polling loop *)

(** The dispatches of a batch are all started before any of them is
    awaited, and from their first [yield] on they run interleaved.  How
    the platform interleaves two or more of them is not written in the
    program, and is taken as given:

    - [concurrently dispatches] is the run of two or more started
      dispatches up to the moment [Promise.all] settles: fulfilled when
      all of them are, rejected with the rejection that comes first in
      time, the others being still under way then;
    - [in_flight dispatches w] is the world that started dispatches made
      of [w] by the time an error thrown by [map] is handled. *)
Variable concurrently : list (M (Promise unit)) -> M (Promise unit).
Variable in_flight : list (M (Promise unit)) -> World -> World.

(** What [handleUpdate] throws before it starts a dispatch: the update
    cannot be read, or it has no type. *)
Definition thrown_at_once (rawUpdate : value) : option exn :=
  match extractUpdate rawUpdate with
  | inl e => Some e
  | inr update =>
      if negb (truthy (type update)) then Some (Error "Undefined update type")
      else None
  end.

(** [updates.map((update) => this.handleUpdate(update))]: the dispatches
    are started in the order of the batch; an update at which
    [handleUpdate] throws ends the [map], the dispatches before it being
    started and those after it not. *)
Fixpoint map_handleUpdate (this : Telegraf) (updates : list value)
    : list (M (Promise unit)) * option exn :=
  match updates with
  | [] => ([], None)
  | update :: rest =>
      match thrown_at_once update with
      | Some e => ([], Some e)
      | None =>
          let (started, thrown) := map_handleUpdate this rest in
          (handleUpdate this update false :: started, thrown)
      end
  end.

(** [Promise.all] on started dispatches: nothing to wait for, one
    dispatch that runs alone, or several that run interleaved. *)
Definition Promise_all (dispatches : list (M (Promise unit)))
    : M (Promise unit) :=
  match dispatches with
  | [] => ret (Resolved tt)
  | [dispatch] => dispatch
  | _ => concurrently dispatches
  end.

(** [Promise.all(updates.map((update) => this.handleUpdate(update)))] *)
Definition dispatch_all (this : Telegraf) (updates : list value)
    : M (Promise unit) :=
  let (started, thrown) := map_handleUpdate this updates in
  match thrown with
  | Some e =>
      fun w => (Err e, match started with
                       | [] => w
                       | _ => in_flight started w
                       end)
  | None => Promise_all started
  end.

(** [setTimeout(..., ms)] awaited. *)
Definition sleep (ms : Z) : M unit :=
  modify (fun w => set_clock (clock w + ms) w).

(** [telegraf.pollingLoop].  The loop runs for ever while [started]
    holds; [fuel] bounds the number of iterations that are followed.  The
    world it returns is the world at the moment the loop's own chain of
    promises ended. *)
Fixpoint pollingLoop (this : Telegraf) (fuel : nat) : M unit :=
  match fuel with
  | O => ret tt
  | S fuel' =>
      started <- gets polling_started ;;
      if negb started then ret tt
      else
        timeout <- gets polling_timeout ;;
        limit <- gets polling_limit ;;
        offset <- gets polling_offset ;;
        fetched <- getUpdates this timeout limit offset ;;
        updates <- match fetched with
                   | Resolved updates => ret updates
                   | Rejected err =>
                       console_error (NetworkErrorLine err) ;;
                       sleep 1000 ;;
                       ret (VArr [])
                   end ;;
        try_catch
          (match updates with
           | VArr updates =>
               settled <- dispatch_all this updates ;;
               match settled with
               | Resolved _ => pollingLoop this fuel'
               | Rejected err => throw err
               end
           | _ => throw TypeError
           end)
          (fun err =>
             console_error (PollingErrorLine err) ;;
             modify (set_started false))
  end.

(** [timeout || 0] and [limit || 100] *)
Definition startPolling (this : Telegraf) (timeout limit : value)
    (fuel : nat) : M unit :=
  modify (fun w =>
    {| polling_offset := polling_offset w; polling_started := true;
       polling_timeout := or_ timeout (VNum 0);
       polling_limit := or_ limit (VNum 100);
       res := res w; network := network w; console := console w;
       reported := reported w; clock := clock w; trace := trace w |}) ;;
  pollingLoop this fuel.

(** *** The webhook endpoint *)

Record IncomingMessage : Type := {
  req_method : string;
  req_url : string;
  req_body : string
}.

(** The callback of [telegraf.webHookCallback(webHookPath)], on a request
    whose body has arrived; [next] is the fallback of the host
    application.  The answer is written to [res].  An [Err] is an error
    that nothing catches: one thrown out of the listener of the request,
    or one thrown inside the last [catch] of the promise chain. *)
Definition webHookCallback (this : Telegraf) (webHookPath : string)
    (req : IncomingMessage) (next : option (M unit)) : M unit :=
  let webHookPath :=
    if String.eqb webHookPath EmptyString then "/" else webHookPath in
  if negb (String.eqb (req_method req) "POST")
     || negb (String.eqb (req_url req) webHookPath)
  then
    match next with
    | Some next => next
    | None => set_statusCode 403 ;; end_ None
    end
  else
    dispatched <-
      try_catch
        (match JSON_parse (req_body req) with
         | inl error => throw error
         | inr update =>
             p <- handleUpdate this update true ;;
             ret (Some p)
         end)
        (fun error =>
           call_onError this error ;;
           writeHead 415 ;;
           end_ None ;;
           ret None) ;;
    match dispatched with
    | Some (Resolved _) =>
        sink <- gets res ;;
        if negb (finished sink) then writeHead 200 ;; end_ None else ret tt
    | Some (Rejected err) => writeHead 500 ;; end_ None
    | None => ret tt
    end.

(** ** Handlers used to observe a run *)

Definition mark (m : Mark) : M unit :=
  modify (fun w => set_trace (trace w ++ [m]) w).

(** [function * (next) { enter; yield next; exit }] *)
Definition recording (name : string) : Middleware :=
  fun _ next => mark (Enter name) ;; next ;; mark (Exit name).

(** [function * (next) { enter; exit }]: the continuation is not used. *)
Definition stopping (name : string) : Middleware :=
  fun _ _ => mark (Enter name) ;; mark (Exit name).

(** [function * (next) { enter; throw e }] *)
Definition throwing (name : string) (e : exn) : Middleware :=
  fun _ _ => mark (Enter name) ;; throw e.

(** [function * (next) { yield this.reply(text); yield next }], the
    sender being [sendMessage] bound to the chat of the update. *)
Definition replying (this : Telegraf) (text : string) : Middleware :=
  fun ctx next =>
    await (sendMessage this (via_sink ctx) (chat ctx) (VStr text) []) ;;
    next.

(** The sink after a remote call was answered through it. *)
Definition answered (sink : ServerResponse) (body : string) : ServerResponse :=
  {| statusCode := statusCode sink;
     headers := headers sink ++ [("Content-Type", "application/json")];
     written := written sink ++ [body];
     finished := true |}.


(** Remote calls issued one after the other during one dispatch, each
    through [sendRequest] with the same [response]; the world after the
    last one. *)
Definition send_each (this : Telegraf) (response : bool)
    (calls : list (string * option obj)) (w : World) : World :=
  fold_left
    (fun w call => snd (sendRequest this (fst call) (snd call) response w))
    calls w.

(** The world after the polling loop gave up on [err]. *)
Definition after_polling_error (err : exn) (w : World) : World :=
  set_started false (set_console (console w ++ [PollingErrorLine err]) w).


(** The sink after [writeHead(code)] and [end()]. *)
Definition closed_with (code : Z) (sink : ServerResponse) : ServerResponse :=
  {| statusCode := code; headers := headers sink;
     written := written sink; finished := true |}.

(** The two scans of [extractUpdate], named. *)
Definition scan_types (update : value) (catalog : list string) (r : Update)
    : Update :=
  fold_left
    (fun result key =>
       if truthy (get update key)
       then {| payload := get update key; type := VStr key;
               subType := subType result |}
       else result)
    catalog r.

Definition scan_subTypes (message : value) (catalog : list string) (r : Update)
    : Update :=
  fold_left
    (fun result messageType =>
       if truthy (get message messageType)
       then {| payload := payload result; type := type result;
               subType := VStr messageType |}
       else result)
    catalog r.

Definition empty_result : Update :=
  {| payload := VUndefined; type := VUndefined; subType := VUndefined |}.

(** The falsy values a JSON document can hold. *)
Definition falsy_literals : list value :=
  [VNum 0; VStr EmptyString; VBool false; VNull].

(** The world after the default handler reported [e] from [w]. *)
Definition after_report (e : exn) (w : World) : World :=
  set_console (console w ++ [Blank; StackOf e; Blank])
    (set_reported (reported w ++ [e]) w).

(** ** A concrete bot

    The catalogs in the order of the interface description, simple
    stand-ins for the platform built-ins, and a bot with the default
    options: the theorems below are run on them. *)

Definition catalog_updateTypes : list string :=
  ["message"; "edited_message"; "channel_post"; "callback_query";
   "inline_query"; "chosen_inline_result"; "shipping_query";
   "pre_checkout_query"].

Definition catalog_messageSubTypes : list string :=
  ["text"; "audio"; "document"; "photo"; "sticker"; "video"; "voice";
   "contact"; "location"].

Fixpoint text_of (v : value) : string :=
  match v with
  | VUndefined => "undefined"
  | VNull => "null"
  | VBool true => "true"
  | VBool false => "false"
  | VNum n => NilZero.string_of_int (Z.to_int n)
  | VNaN => "NaN"
  | VStr s => s
  | VArr items =>
      String.concat ","
        (map (fun x => if nullish x then EmptyString else text_of x) items)
  | VObj _ => "[object Object]"
  end.

Definition quoted (s : string) : string :=
  String (ascii_of_nat 34) (s ++ String (ascii_of_nat 34) EmptyString).

Fixpoint json_of (v : value) : string :=
  match v with
  | VUndefined | VNull | VNaN => "null"
  | VBool true => "true"
  | VBool false => "false"
  | VNum n => NilZero.string_of_int (Z.to_int n)
  | VStr s => quoted s
  | VArr items => "[" ++ String.concat "," (map json_of items) ++ "]"
  | VObj members =>
      "{" ++ String.concat ","
               (map (fun kv => quoted (fst kv) ++ ":" ++ json_of (snd kv))
                    members) ++ "}"
  end.

Definition remote_down (n : nat) (call : FetchCall) : Reply :=
  Unreachable (FetchError "connect ECONNREFUSED").

(** A remote side that delivers one batch, then is unreachable. *)
Definition remote_once (batch : list value) (n : nat) (call : FetchCall)
    : Reply :=
  match n with
  | O => Json (VObj [("ok", VBool true); ("result", VArr batch)])
  | S _ => remote_down n call
  end.

Definition bot (mws : list Middleware) : Telegraf :=
  {| token := VStr "110201543:AAHdqTcvCH1vGWJxfSeofSAs0K5PALDsaw";
     webHookAnswer := true;
     apiRoot := "https://api.telegram.org";
     middleware := mws;
     onError := default_onError |}.

(** The same bot with an error handler that keeps quiet. *)
Definition quiet_bot (mws : list Middleware) : Telegraf :=
  {| token := token (bot mws); webHookAnswer := true;
     apiRoot := apiRoot (bot mws); middleware := mws;
     onError := fun _ => ret tt |}.

Definition polling_world : World :=
  {| polling_offset := VNum 0; polling_started := true;
     polling_timeout := VNum 0; polling_limit := VNum 100;
     res := fresh_response; network := []; console := [];
     reported := []; clock := 0; trace := [] |}.

Definition text_message : value :=
  VObj [("message_id", VNum 5);
        ("chat", VObj [("id", VNum 99)]);
        ("text", VStr "hello");
        ("photo", VArr [VObj [("file_id", VStr "f1")]])].

Definition update_41 : obj :=
  [("update_id", VNum 41); ("message", text_message)].

Definition update_two_kinds : obj :=
  [("update_id", VNum 7);
   ("callback_query", VObj [("id", VStr "q1")]);
   ("message", text_message)].

(** A parser that knows two documents and rejects everything else. *)
Definition parse_known (s : string) : exn + value :=
  if String.eqb s "{}" then inr (VObj [])
  else if String.eqb s (json_of (VObj update_41)) then inr (VObj update_41)
  else inl (SyntaxError "Unexpected end of JSON input").

(** A remote side that accepts every call. *)
Definition remote_ok (n : nat) (call : FetchCall) : Reply :=
  Json (VObj [("ok", VBool true); ("result", VObj [("message_id", VNum 6)])]).

Definition bad_request : IncomingMessage :=
  {| req_method := "POST"; req_url := "/"; req_body := "{" |}.

Definition message_context : Context :=
  {| eventType := VStr "message"; eventSubType := VStr "photo";
     payload_of := text_message; chat := VNum 99; via_sink := false |}.


(** The integer with 53 significant bits nearest to [z], the even one of
    two: what a double keeps of an integer below 2^1024. *)
Definition round_to_double (z : Z) : Z :=
  let a := Z.abs z in
  let dropped := (Z.log2 a - 52)%Z in
  if (dropped <=? 0)%Z then z
  else
    let q := Z.shiftr a dropped in
    let r := Z.land a (Z.ones dropped) in
    let half := Z.shiftl 1 (dropped - 1) in
    let q := if (r <? half)%Z then q
             else if (half <? r)%Z then (q + 1)%Z
             else if Z.even q then q else (q + 1)%Z in
    (Z.sgn z * Z.shiftl q dropped)%Z.

Definition sum_of_doubles (x y : Z) : value := VNum (round_to_double (x + y)).

Definition ERR_HTTP_HEADERS_SENT : exn :=
  Error "Cannot render headers after they are sent to the client".

(** Stand-ins for the interleaving: dispatches that take turns, each
    running to its end.  The batches run below start at most one
    dispatch, which runs alone whatever the interleaving. *)
Fixpoint in_turn (dispatches : list (M (Promise unit))) : M (Promise unit) :=
  match dispatches with
  | [] => ret (Resolved tt)
  | dispatch :: rest =>
      settled <- dispatch ;;
      match settled with
      | Resolved _ => in_turn rest
      | Rejected e => in_turn rest ;; ret (Rejected e)
      end
  end.

Definition run_to_the_end (dispatches : list (M (Promise unit))) (w : World)
    : World :=
  fold_left (fun w dispatch => snd (dispatch w)) dispatches w.

(** ** More of the API *)

(** [Object.assign(target, source)]: the members of [source], in order,
    are assigned on [target]. *)
Definition Object_assign (target source : obj) : obj :=
  fold_left (fun o kv => assign o (fst kv) (snd kv)) source target.

(** The media senders.  [response] tells, as for [sendMessage], whether
    the receiver's [sendRequest] passes the webhook response on. *)
Definition sendPhoto (this : Telegraf) (response : bool)
    (chatId photo : value) (extra : obj) : M (Promise value) :=
  let options := [("chat_id", chatId); ("photo", photo)] in
  sendRequest this "sendPhoto" (Some (Object_assign options extra)) response.

Definition sendDocument (this : Telegraf) (response : bool)
    (chatId doc : value) (extra : obj) : M (Promise value) :=
  let options := [("chat_id", chatId); ("document", doc)] in
  sendRequest this "sendDocument" (Some (Object_assign options extra))
    response.

Definition sendAudio (this : Telegraf) (response : bool)
    (chatId audio : value) (extra : obj) : M (Promise value) :=
  let options := [("chat_id", chatId); ("audio", audio)] in
  sendRequest this "sendAudio" (Some (Object_assign options extra)) response.

Definition sendSticker (this : Telegraf) (response : bool)
    (chatId sticker : value) (extra : obj) : M (Promise value) :=
  let options := [("chat_id", chatId); ("sticker", sticker)] in
  sendRequest this "sendSticker" (Some (Object_assign options extra))
    response.

Definition sendVideo (this : Telegraf) (response : bool)
    (chatId video : value) (extra : obj) : M (Promise value) :=
  let options := [("chat_id", chatId); ("video", video)] in
  sendRequest this "sendVideo" (Some (Object_assign options extra)) response.

Definition sendVoice (this : Telegraf) (response : bool)
    (chatId voice : value) (extra : obj) : M (Promise value) :=
  let options := [("chat_id", chatId); ("voice", voice)] in
  sendRequest this "sendVoice" (Some (Object_assign options extra)) response.

(** Whether an option makes it into a multipart body. *)
Definition sent_in_form (v : value) : bool :=
  negb (nullish v) && (negb (is_object v) || truthy (get v "source")).

(** What a scan of the kinds can leave behind. *)
Definition well_typed (update : value) (catalog : list string) (r : Update)
    : Prop :=
  (type r = VUndefined /\ payload r = VUndefined)
  \/ exists k, In k catalog /\ type r = VStr k /\ payload r = get update k
               /\ truthy (payload r) = true.

(** [webHookPath || '/'] *)
Definition the_path (webHookPath : string) : string :=
  if String.eqb webHookPath EmptyString then "/" else webHookPath.

(** The handlers of a bot after [use] was called with each of [fns] in
    turn. *)
Definition use_each (fns : list Middleware) (this : Telegraf) : Telegraf :=
  fold_left (fun this fn => use fn this) fns this.

(** The world after [startPolling] set the loop up. *)
Definition polling_set_up (timeout limit : value) (w : World) : World :=
  {| polling_offset := polling_offset w; polling_started := true;
     polling_timeout := or_ timeout (VNum 0);
     polling_limit := or_ limit (VNum 100);
     res := res w; network := network w; console := console w;
     reported := reported w; clock := clock w; trace := trace w |}.

(** The call [sendRequest] fetches for [method] and [options]. *)
Definition fetch_of (this : Telegraf) (method : string) (options : option obj)
    : FetchCall :=
  {| fetch_url := apiRoot this ++ "/bot" ++ ToString (token this) ++ "/"
                  ++ method;
     fetch_headers :=
       if isFileRequest (assign_empty options) then []
       else [("Content-Type", "application/json")];
     fetch_body :=
       if isFileRequest (assign_empty options)
       then FormData (buildFormData (assign_empty options))
       else JsonText (JSON_stringify (VObj (assign_empty options))) |}.

(** A bot without token, otherwise as [bot]. *)
Definition tokenless_bot (mws : list Middleware) : Telegraf :=
  {| token := VUndefined; webHookAnswer := true;
     apiRoot := apiRoot (bot mws); middleware := mws;
     onError := default_onError |}.

(** A bot that does not answer through the webhook response. *)
Definition plain_bot (mws : list Middleware) : Telegraf :=
  {| token := token (bot mws); webHookAnswer := false;
     apiRoot := apiRoot (bot mws); middleware := mws;
     onError := default_onError |}.

Definition callback_query : value :=
  VObj [("id", VStr "q1"); ("data", VStr "yes");
        ("message", text_message)].

Definition update_callback : obj :=
  [("update_id", VNum 50); ("callback_query", callback_query)].

Definition photo_upload : value :=
  VObj [("source", VStr "/tmp/cat.png")].

(** A remote side whose reply is ok but carries no result. *)
Definition remote_garbage (n : nat) (call : FetchCall) : Reply :=
  Json (VObj [("ok", VBool true)]).


Definition update_unknown : obj :=
  [("update_id", VNum 42); ("poll", VObj [("id", VStr "p")])].

(** A platform without buffers, with one file on disk. *)
Definition no_buffer (v : value) : bool := false.
Definition no_length (v : value) : value := VUndefined.
Definition on_disk (v : value) : bool :=
  match v with
  | VStr path => String.eqb path "/tmp/cat.png"
  | _ => false
  end.
Definition size_on_disk (v : value) : value := VNum 2048.

Definition upload_options : obj :=
  [("chat_id", VNum 99);
   ("photo", photo_upload);
   ("caption", VNull);
   ("tags", VArr [VStr "cat"]);
   ("reply_markup", VObj [("keyboard", VArr [])])].

Set Default Proof Using "Type".

(** ** Normalisation: the scan of a catalog *)

Section Scan.
Variable A : Type.
Variable hit : string -> bool.
Variable upd : A -> string -> A.

Lemma scan_no_hit (l : list string) (r : A) :
  (forall k, In k l -> hit k = false) ->
  fold_left (fun r k => if hit k then upd r k else r) l r = r.
Proof.
  revert r. induction l as [|k l IH]; intros r H; simpl; [reflexivity|].
  rewrite (H k (or_introl eq_refl)).
  apply IH. intros k' Hk'. apply H. now right.
Qed.

Lemma scan_last_hit (before after : list string) (k : string) (r : A) :
  hit k = true ->
  (forall k', In k' after -> hit k' = false) ->
  fold_left (fun r k => if hit k then upd r k else r)
    (before ++ k :: after)%list r
  = upd (fold_left (fun r k => if hit k then upd r k else r) before r) k.
Proof.
  intros Hk Hafter. rewrite fold_left_app. simpl.
  rewrite scan_no_hit by assumption.
  now rewrite Hk.
Qed.
End Scan.

Lemma extractUpdate_unfold (o : obj) :
  extractUpdate (VObj o) =
  inr (let r := scan_types (VObj o) updateTypes empty_result in
       if truthy (lookup o "message")
       then scan_subTypes (lookup o "message") messageSubTypes r
       else r).
Proof. reflexivity. Qed.

Lemma scan_subTypes_keeps (message : value) (l : list string) (r : Update) :
  type (scan_subTypes message l r) = type r
  /\ payload (scan_subTypes message l r) = payload r.
Proof.
  revert r. induction l as [|m l IH]; intros r; simpl; [now split|].
  unfold scan_subTypes in *. simpl.
  destruct (truthy (get message m)); rewrite (proj1 (IH _)), (proj2 (IH _));
    now split.
Qed.

Lemma scan_types_none (update : value) (l : list string) (r : Update) :
  (forall k, In k l -> truthy (get update k) = false) ->
  scan_types update l r = r.
Proof. intros H. unfold scan_types. now apply scan_no_hit. Qed.

Lemma lookup_absent (o : obj) (k : string) :
  ~ In k (keys o) -> lookup o k = VUndefined.
Proof.
  induction o as [|[k' v] o IH]; simpl; intros H; [reflexivity|].
  destruct (String.eqb_spec k' k) as [->|Hne].
  - exfalso. apply H. now left.
  - apply IH. intros Hin. apply H. now right.
Qed.

Lemma lookup_remove (o : obj) (k k' : string) :
  lookup (remove o k) k' = if String.eqb k k' then VUndefined else lookup o k'.
Proof.
  induction o as [|[k0 v] o IH]; simpl.
  - now destruct (String.eqb k k').
  - destruct (String.eqb_spec k0 k) as [->|Hne].
    + rewrite IH. destruct (String.eqb_spec k k'); reflexivity.
    + simpl. rewrite IH.
      destruct (String.eqb_spec k0 k') as [->|Hne'].
      * destruct (String.eqb_spec k k'); [congruence|reflexivity].
      * reflexivity.
Qed.

Lemma lookup_assign (o : obj) (k k' : string) (v : value) :
  lookup (assign o k v) k' = if String.eqb k k' then v else lookup o k'.
Proof.
  induction o as [|[k0 v0] o IH]; simpl.
  - reflexivity.
  - destruct (String.eqb_spec k0 k) as [->|Hne]; simpl.
    + destruct (String.eqb_spec k k'); reflexivity.
    + rewrite IH. destruct (String.eqb_spec k0 k') as [->|Hne'].
      * destruct (String.eqb_spec k k'); [congruence|reflexivity].
      * reflexivity.
Qed.

(** A scan sees an update only through the truthy members it reads. *)
Lemma scan_types_agree (u u' : value) (l : list string) (r : Update) :
  (forall k, In k l ->
     truthy (get u k) = truthy (get u' k)
     /\ (truthy (get u k) = true -> get u k = get u' k)) ->
  scan_types u l r = scan_types u' l r.
Proof.
  revert r. induction l as [|k l IH]; intros r H; [reflexivity|].
  unfold scan_types in *. simpl.
  destruct (H k (or_introl eq_refl)) as [Ht Hv].
  rewrite <- Ht. destruct (truthy (get u k)) eqn:E.
  - rewrite <- (Hv eq_refl). apply IH. intros k' Hk'. apply H. now right.
  - apply IH. intros k' Hk'. apply H. now right.
Qed.

Lemma scan_types_alike (u u' : value) (l : list string) (r r' : Update) :
  (forall k, In k l -> truthy (get u k) = truthy (get u' k)) ->
  type r = type r' -> subType r = subType r' ->
  type (scan_types u l r) = type (scan_types u' l r')
  /\ subType (scan_types u l r) = subType (scan_types u' l r').
Proof.
  revert r r'. induction l as [|k l IH]; intros r r' H Ht Hs; [now split|].
  unfold scan_types in *. simpl.
  rewrite <- (H k (or_introl eq_refl)).
  destruct (truthy (get u k)); apply IH; simpl; auto;
    intros k' Hk'; apply H; now right.
Qed.

Lemma scan_subTypes_agree (m m' : value) (l : list string) (r r' : Update) :
  (forall k, In k l -> truthy (get m k) = truthy (get m' k)) ->
  type r = type r' -> subType r = subType r' ->
  type (scan_subTypes m l r) = type (scan_subTypes m' l r')
  /\ subType (scan_subTypes m l r) = subType (scan_subTypes m' l r').
Proof.
  revert r r'. induction l as [|k l IH]; intros r r' H Ht Hs; [now split|].
  unfold scan_subTypes in *. simpl.
  rewrite <- (H k (or_introl eq_refl)).
  destruct (truthy (get m k)); apply IH; simpl; auto;
    intros k' Hk'; apply H; now right.
Qed.

Lemma falsy_literals_falsy (v : value) :
  In v falsy_literals -> truthy v = false.
Proof.
  unfold falsy_literals. simpl.
  intros [<-|[<-|[<-|[<-|[]]]]]; reflexivity.
Qed.

Lemma handleUpdate_untyped
    (this : Telegraf) (o : obj) (hook : bool) (w : World) :
  (forall k, In k updateTypes -> truthy (lookup o k) = false) ->
  handleUpdate this (VObj o) hook w = (Err (Error "Undefined update type"), w).
Proof.
  intros H. unfold handleUpdate. rewrite extractUpdate_unfold. cbv zeta.
  rewrite scan_types_none by exact H.
  destruct (truthy (lookup o "message")).
  - destruct (scan_subTypes_keeps (lookup o "message") messageSubTypes
                empty_result) as [Ht _].
    rewrite Ht. reflexivity.
  - reflexivity.
Qed.

(** C1. Last match wins: whatever other recognised keys a raw update
    carries, the recognised key with a truthy value that comes last in
    [updateTypes] gives the type and the payload; and when that key is
    [message], the sub-type is the last entry of [messageSubTypes] that the
    message carries. *)
Theorem extractUpdate_last_match_wins
    (o : obj) (before after : list string) (k : string) :
  updateTypes = (before ++ k :: after)%list ->
  truthy (lookup o k) = true ->
  (forall k', In k' after -> truthy (lookup o k') = false) ->
  exists u,
    extractUpdate (VObj o) = inr u
    /\ type u = VStr k
    /\ payload u = lookup o k
    /\ (k = "message" ->
        forall sbefore safter m,
          messageSubTypes = (sbefore ++ m :: safter)%list ->
          truthy (get (lookup o "message") m) = true ->
          (forall m', In m' safter ->
             truthy (get (lookup o "message") m') = false) ->
          subType u = VStr m).
Proof.
  intros Hcat Hk Hafter.
  eexists. split; [apply extractUpdate_unfold|]. cbv zeta.
  assert (Hscan : scan_types (VObj o) updateTypes empty_result
                  = {| payload := lookup o k; type := VStr k;
                       subType := subType (scan_types (VObj o) before
                                             empty_result) |}).
  { unfold scan_types. rewrite Hcat.
    rewrite scan_last_hit with (hit := fun key => truthy (get (VObj o) key))
      by assumption.
    reflexivity. }
  rewrite Hscan.
  destruct (truthy (lookup o "message")) eqn:Hm.
  - destruct (scan_subTypes_keeps (lookup o "message") messageSubTypes
                {| payload := lookup o k; type := VStr k;
                   subType := subType (scan_types (VObj o) before
                                         empty_result) |}) as [Ht Hp].
    rewrite Ht, Hp. simpl. repeat split.
    intros _ sbefore safter m Hsub Hhit Hrest.
    unfold scan_subTypes. rewrite Hsub.
    rewrite scan_last_hit
      with (hit := fun mt => truthy (get (lookup o "message") mt))
      by assumption.
    reflexivity.
  - simpl. repeat split. intros ->. congruence.
Qed.

(** C8. A raw update that carries none of the recognised keys makes
    [handleUpdate] throw "Undefined update type" at once: the world is
    left as it was, whatever middleware is registered. *)
Theorem handleUpdate_unrecognised
    (this : Telegraf) (o : obj) (webHookResponse : bool) (w : World) :
  (forall k, In k updateTypes -> ~ In k (keys o)) ->
  (exists u, extractUpdate (VObj o) = inr u /\ type u = VUndefined)
  /\ handleUpdate this (VObj o) webHookResponse w
     = (Err (Error "Undefined update type"), w).
Proof.
  intros H.
  assert (Hf : forall k, In k updateTypes -> truthy (lookup o k) = false).
  { intros k Hk. now rewrite lookup_absent by auto. }
  split; [|now apply handleUpdate_untyped].
  eexists. split; [apply extractUpdate_unfold|]. cbv zeta.
  rewrite scan_types_none by exact Hf.
  destruct (truthy (lookup o "message")); [|reflexivity].
  now rewrite (proj1 (scan_subTypes_keeps _ _ _)).
Qed.

(** C10. Presence is truthiness.  When the one recognised key of a raw
    update holds 0, the empty string, false or null, [extractUpdate]
    answers as for the update without that key and [handleUpdate] throws
    "Undefined update type"; and a member of the message holding such a
    value counts for the sub-type as if it were not there. *)
Theorem extractUpdate_falsy_is_absent (v : value) :
  In v falsy_literals ->
  (forall (o : obj) (k : string),
      lookup o k = v ->
      (forall k', In k' updateTypes -> k' <> k -> ~ In k' (keys o)) ->
      extractUpdate (VObj o) = extractUpdate (VObj (remove o k))
      /\ forall this webHookResponse w,
           handleUpdate this (VObj o) webHookResponse w
           = (Err (Error "Undefined update type"), w))
  /\ (forall (o message : obj) (m : string),
         lookup o "message" = VObj message ->
         lookup message m = v ->
         exists u u',
           extractUpdate (VObj o) = inr u
           /\ extractUpdate
                (VObj (assign o "message" (VObj (remove message m)))) = inr u'
           /\ type u = type u' /\ subType u = subType u').
Proof.
  intros Hv. apply falsy_literals_falsy in Hv. split.
  - intros o k Hk Hothers. split.
    + rewrite !extractUpdate_unfold. cbv zeta. f_equal.
      rewrite (scan_types_agree (VObj o) (VObj (remove o k))).
      2:{ intros k' _. simpl. rewrite lookup_remove.
          destruct (String.eqb_spec k k') as [<-|Hne].
          - rewrite Hk, Hv. split; [reflexivity|discriminate].
          - split; reflexivity. }
      rewrite (lookup_remove o k "message").
      destruct (String.eqb_spec k "message") as [->|Hne]; [|reflexivity].
      now rewrite Hk, Hv.
    + intros this hook w. apply handleUpdate_untyped.
      intros k' Hk'. destruct (String.eqb_spec k' k) as [->|Hne].
      * now rewrite Hk.
      * now rewrite lookup_absent by auto.
  - intros o message m Hmsg Hm.
    do 2 eexists. split; [apply extractUpdate_unfold|].
    split; [apply extractUpdate_unfold|]. cbv zeta.
    set (o' := assign o "message" (VObj (remove message m))).
    assert (Hsame : forall k,
               truthy (get (VObj o) k) = truthy (get (VObj o') k)).
    { intros k. unfold o'. simpl. rewrite lookup_assign.
      destruct (String.eqb_spec "message" k) as [<-|Hne]; [|reflexivity].
      now rewrite Hmsg. }
    destruct (scan_types_alike (VObj o) (VObj o') updateTypes
                empty_result empty_result (fun k _ => Hsame k)
                eq_refl eq_refl) as [Ht Hs].
    generalize (Hsame "message"). simpl. intros <-.
    rewrite Hmsg. simpl.
    replace (lookup o' "message") with (VObj (remove message m))
      by (unfold o'; now rewrite lookup_assign).
    apply scan_subTypes_agree; auto.
    intros k _. simpl. rewrite lookup_remove.
    destruct (String.eqb_spec m k) as [<-|Hne]; [|reflexivity].
    now rewrite Hm, Hv.
Qed.

(** ** Composition: the onion *)

Lemma compose_fold (mws : list Middleware) (this : Context)
    (next : option Generator) :
  compose mws this next
  = fold_right (fun mw next => mw this next)
      (match next with Some next => next | None => noop end) mws.
Proof.
  unfold compose.
  rewrite <- (rev_involutive mws) at 2.
  rewrite fold_left_rev_right. reflexivity.
Qed.

Lemma compose_cons (mw : Middleware) (mws : list Middleware)
    (this : Context) (next : option Generator) :
  compose (mw :: mws) this next = mw this (compose mws this next).
Proof. now rewrite !compose_fold. Qed.

Lemma compose_nil (this : Context) (next : option Generator) :
  compose [] this next = match next with Some next => next | None => noop end.
Proof. reflexivity. Qed.

Lemma set_trace_twice (t t' : list Mark) (w : World) :
  set_trace t (set_trace t' w) = set_trace t w.
Proof. reflexivity. Qed.

(** A prefix of recording handlers enters in order, runs what follows,
    and leaves in reverse order, unless what follows throws. *)
Lemma compose_recording_prefix (names : list string) (rest : list Middleware)
    (this : Context) (next : option Generator) (w : World) :
  compose (map recording names ++ rest) this next w
  = match compose rest this next
            (set_trace (trace w ++ map Enter names) w) with
    | (Ok _, w') => (Ok tt, set_trace (trace w' ++ map Exit (rev names)) w')
    | (Err e, w') => (Err e, w')
    end.
Proof.
  revert w. induction names as [|a names IH]; intros w; simpl.
  - rewrite app_nil_r.
    replace (set_trace (trace w) w) with w by now destruct w.
    destruct (compose rest this next w) as [[[]|e] w']; [|reflexivity].
    rewrite app_nil_r. now destruct w'.
  - rewrite compose_cons. unfold recording at 1, bind, mark, modify.
    rewrite IH. simpl. rewrite <- app_assoc. simpl.
    destruct (compose rest this next _) as [[[]|e] w']; [|reflexivity].
    simpl. rewrite set_trace_twice, map_app, app_assoc. reflexivity.
Qed.

(** C3. Onion order: three recording handlers composed and run to the
    end leave the trace a-enter, b-enter, c-enter, c-exit, b-exit,
    a-exit. *)
Theorem compose_onion_order (a b c : string) (this : Context) (w : World) :
  compose [recording a; recording b; recording c] this None w
  = (Ok tt,
     set_trace (trace w ++ [Enter a; Enter b; Enter c;
                            Exit c; Exit b; Exit a]) w).
Proof.
  change [recording a; recording b; recording c]
    with (map recording [a; b; c] ++ [])%list.
  rewrite compose_recording_prefix. simpl.
  now rewrite <- app_assoc.
Qed.

(** C9. Short circuit: when the second handler does not use its
    continuation, the third one, whatever it is, does not run; the run
    ends without an error with the trace a-enter, b-enter, b-exit, a-exit.
    The empty chain is the continuation it is given, and [noop] when it
    is given none. *)
Theorem compose_short_circuit
    (a b : string) (c : Middleware) (this : Context) (w : World) :
  compose [recording a; stopping b; c] this None w
  = (Ok tt, set_trace (trace w ++ [Enter a; Enter b; Exit b; Exit a]) w)
  /\ compose [] this None = noop
  /\ (forall next, compose [] this (Some next) = next)
  /\ noop w = (Ok tt, w).
Proof.
  repeat split.
  change [recording a; stopping b; c]
    with (map recording [a] ++ [stopping b; c])%list.
  rewrite compose_recording_prefix, compose_cons.
  unfold stopping, bind, mark, modify. simpl.
  now rewrite <- !app_assoc.
Qed.

Lemma call_default_onError (this : Telegraf) (e : exn) (w : World) :
  onError this = default_onError ->
  call_onError this e w = (Err e, after_report e w).
Proof.
  intros H. unfold call_onError, bind, modify. rewrite H.
  unfold default_onError, bind, console_error, modify, throw, after_report.
  simpl. now rewrite <- !app_assoc.
Qed.


(** Below 2^53 the successor of an integer is exact. *)
Lemma add_one (n : Z) :
  (Z.abs n < 2 ^ 53)%Z -> add (VNum n) (VNum 1) = VNum (n + 1).
Proof.
  intros Hn. unfold add. cbn [concatenates orb to_number].
  assert (H : is_exact (n + 1) = true).
  { unfold is_exact. apply Z.leb_le.
    change (2 ^ 53)%Z with 9007199254740992%Z in *. lia. }
  now rewrite H.
Qed.

(** C4. A dispatch that completes successfully leaves the offset at the
    update's [update_id] plus one, for an [update_id] below 2^53 in
    absolute value, where the sum is exact. *)
Theorem handleUpdate_advances_offset
    (this : Telegraf) (rawUpdate : value) (webHookResponse : bool)
    (n : Z) (w w' : World) :
  get rawUpdate "update_id" = VNum n ->
  (Z.abs n < 2 ^ 53)%Z ->
  handleUpdate this rawUpdate webHookResponse w = (Ok (Resolved tt), w') ->
  polling_offset w' = VNum (n + 1).
Proof.
  intros Hid Hn. unfold handleUpdate.
  destruct (extractUpdate rawUpdate) as [e|u]; [discriminate|].
  destruct (negb (truthy (type u))); [discriminate|].
  unfold bind, ware_run.
  destruct (compose _ _ _ w) as [[[]|e] w1].
  - unfold then_, bind, modify, ret. rewrite Hid, add_one by exact Hn.
    intros H. injection H as <-. reflexivity.
  - destruct (call_onError this e w1) as [[[]|e'] w2].
    + unfold then_, bind, modify, ret. rewrite Hid, add_one by exact Hn.
      intros H. injection H as <-. reflexivity.
    + discriminate.
Qed.

(** ** Answering through the webhook response *)

(** The sink path of [sendRequest] on an open response. *)
Lemma answer_in_sink (body : string) (w : World) :
  finished (res w) = false ->
  (setHeader "Content-Type" "application/json" ;;
   end_ (Some body) ;;
   ret (Resolved VUndefined)) w
  = (Ok (Resolved VUndefined : Promise value),
     set_res (answered (res w) body) w).
Proof.
  intros Hopen. unfold bind, setHeader, end_, modify, ret. cbn.
  now rewrite Hopen.
Qed.

Lemma sendRequest_through_sink (this : Telegraf) (method : string)
    (options : option obj) (w : World) :
  finished (res w) = false ->
  isFileRequest (assign_empty options) = false ->
  sendRequest this method options true w
  = (Ok (Resolved VUndefined),
     set_res (answered (res w)
                (JSON_stringify
                   (VObj (assign (assign_empty options) "method"
                            (VStr method))))) w).
Proof.
  intros Hopen Hfile. unfold sendRequest. cbv zeta.
  unfold bind at 1, gets. rewrite Hopen, Hfile. cbn [andb negb].
  now apply answer_in_sink.
Qed.

Lemma sendRequest_over_network (this : Telegraf) (method : string)
    (options : option obj) (w : World) :
  finished (res w) = true \/ isFileRequest (assign_empty options) = true ->
  sendRequest this method options true w
  = sendRequest this method options false w.
Proof.
  intros H. unfold sendRequest, bind, gets. cbv zeta.
  destruct H as [-> | ->]; simpl; [reflexivity|].
  now rewrite andb_false_r.
Qed.

(** Off the sink path, a call leaves the response alone. *)
Lemma sendRequest_keeps_res (this : Telegraf) (method : string)
    (options : option obj) (w : World) :
  res (snd (sendRequest this method options false w)) = res w.
Proof.
  unfold sendRequest, bind, gets, fetch, throw, ret. cbv zeta. simpl.
  destruct (negb (truthy (token this))); [reflexivity|].
  destruct (remote _ _) as [err|data]; [reflexivity|].
  destruct (nullish data); [reflexivity|].
  destruct (truthy (get data "ok")); reflexivity.
Qed.

Lemma sendRequest_res_cases (this : Telegraf) (method : string)
    (options : option obj) (response : bool) (w : World) :
  res (snd (sendRequest this method options response w)) = res w
  \/ (finished (res w) = false
      /\ exists body,
           res (snd (sendRequest this method options response w))
           = answered (res w) body).
Proof.
  destruct response; [|left; apply sendRequest_keeps_res].
  destruct (finished (res w)) eqn:Hfin.
  - left. rewrite sendRequest_over_network by now left.
    apply sendRequest_keeps_res.
  - destruct (isFileRequest (assign_empty options)) eqn:Hfile.
    + left. rewrite sendRequest_over_network by now right.
      apply sendRequest_keeps_res.
    + right. split; [reflexivity|]. eexists.
      now rewrite sendRequest_through_sink.
Qed.

Lemma send_each_finished (this : Telegraf) (response : bool)
    (calls : list (string * option obj)) (w : World) :
  finished (res w) = true -> res (send_each this response calls w) = res w.
Proof.
  revert w. induction calls as [|[method options] calls IH]; intros w Hfin;
    [reflexivity|].
  unfold send_each in *. simpl.
  destruct (sendRequest_res_cases this method options response w)
    as [Hsame | [Hopen _]]; [|congruence].
  rewrite IH; rewrite Hsame; auto.
Qed.

Lemma send_each_writes_once (this : Telegraf) (response : bool)
    (calls : list (string * option obj)) (w : World) :
  (List.length (written (res (send_each this response calls w)))
   <= List.length (written (res w)) + 1)%nat.
Proof.
  revert w. induction calls as [|[method options] calls IH]; intros w.
  - simpl. lia.
  - change (send_each this response ((method, options) :: calls) w)
      with (send_each this response calls
              (snd (sendRequest this method options response w))).
    destruct (sendRequest_res_cases this method options response w)
      as [Hsame | [_ [body Hbody]]].
    + rewrite <- Hsame. apply IH.
    + rewrite send_each_finished by now rewrite Hbody.
      rewrite Hbody. simpl. rewrite length_app. simpl. lia.
Qed.

Lemma filter_nonempty {A : Type} (f : A -> bool) (l : list A) :
  (0 <? List.length (filter f l))%nat = true
  <-> exists x, In x l /\ f x = true.
Proof.
  induction l as [|a l IH]; simpl.
  - split; [discriminate|intros (x & [] & _)].
  - destruct (f a) eqn:Ha; simpl.
    + split; [intros _; exists a; auto|reflexivity].
    + rewrite IH. split.
      * intros (x & Hin & Hx). exists x. auto.
      * intros (x & [<- | Hin] & Hx); [congruence|exists x; auto].
Qed.

Lemma truthy_and (a b : value) :
  truthy (and_ a b) = true <-> truthy a = true /\ truthy b = true.
Proof.
  unfold and_. destruct (truthy a) eqn:Ha.
  - split; [intros H; split; [reflexivity|exact H]|intros [_ H]; exact H].
  - rewrite Ha. split; [discriminate|intros [H _]; discriminate].
Qed.

Lemma isFileRequest_spec (options : obj) :
  isFileRequest options = true
  <-> exists k, In k (keys options)
                /\ truthy (lookup options k) = true
                /\ truthy (get (lookup options k) "source") = true.
Proof.
  unfold isFileRequest. rewrite filter_nonempty.
  split; intros (k & Hin & H); exists k; split; auto; now apply truthy_and.
Qed.

Lemma isFileRequest_lookup (options : obj) (k : string) :
  In k (keys options) ->
  truthy (lookup options k) = true ->
  truthy (get (lookup options k) "source") = true ->
  isFileRequest options = true.
Proof.
  intros Hin Hv Hs. unfold isFileRequest. apply filter_nonempty.
  exists k. split; [exact Hin|]. now apply truthy_and.
Qed.

Lemma sendRequest_fetches (this : Telegraf) (method : string)
    (options : option obj) (response : bool) (w : World) :
  truthy (token this) = true ->
  response && negb (finished (res w))
  && negb (isFileRequest (assign_empty options)) = false ->
  exists p,
    sendRequest this method options response w
    = (Ok p, set_network (network w ++ [fetch_of this method options]) w).
Proof.
  intros Htok Hcond. unfold sendRequest, bind, gets. cbv zeta.
  rewrite Hcond, Htok. cbn [negb]. unfold fetch.
  fold (fetch_of this method options).
  destruct (remote _ _) as [err|data]; [unfold ret; eauto|].
  destruct (nullish data); [unfold ret; eauto|].
  destruct (truthy (get data "ok")); unfold ret; eauto.
Qed.

Lemma sendRequest_sink (this : Telegraf) (method : string)
    (options : option obj) (response : bool) (w : World) :
  response && negb (finished (res w))
  && negb (isFileRequest (assign_empty options)) = true ->
  sendRequest this method options response w
  = (Ok (Resolved VUndefined),
     set_res (answered (res w)
                (JSON_stringify
                   (VObj (assign (assign_empty options) "method"
                            (VStr method))))) w).
Proof.
  intros Hcond. unfold sendRequest. cbv zeta.
  unfold bind at 1, gets. rewrite Hcond.
  apply answer_in_sink.
  apply andb_prop in Hcond as [Hcond _].
  apply andb_prop in Hcond as [_ Hfin].
  now apply negb_true_iff in Hfin.
Qed.

(** C5. With answer-via-webhook on, the senders of a webhook dispatch
    reach [sendRequest] with the response.  A call none of whose
    parameters is an attachment (a truthy parameter with a truthy
    [source]) and that finds the response open is answered in it: the
    options with [method] added are written as the JSON body, the
    response is finished, and the network is not used.  A call with an
    attachment, or one that finds the response finished, leaves the
    response as it is: it is the call made without a response, and with a
    token it is fetched once from the URL of the method, as a multipart
    form when there is an attachment and as JSON text when there is none.
    Hence, over any sequence of calls, at most one body is written. *)
Theorem sendRequest_answers_first_call_in_sink
    (this : Telegraf) (update : Update) (method : string)
    (options : option obj) (w : World) :
  webHookAnswer this = true ->
  let response := via_sink (build_context this update true) in
  let o := assign_empty options in
  let attachment k :=
    truthy (lookup o k) = true /\ truthy (get (lookup o k) "source") = true in
  (finished (res w) = false ->
   (forall k, In k (keys o) -> ~ attachment k) ->
   sendRequest this method options response w
   = (Ok (Resolved VUndefined),
      set_res (answered (res w)
                 (JSON_stringify (VObj (assign o "method" (VStr method)))))
        w))
  /\ (finished (res w) = true \/ (exists k, In k (keys o) /\ attachment k) ->
      sendRequest this method options response w
      = sendRequest this method options false w
      /\ res (snd (sendRequest this method options response w)) = res w
      /\ (truthy (token this) = true ->
          exists p call,
            sendRequest this method options response w
            = (Ok p, set_network (network w ++ [call]) w)
            /\ fetch_url call
               = apiRoot this ++ "/bot" ++ ToString (token this) ++ "/"
                 ++ method
            /\ ((exists k, In k (keys o) /\ attachment k) ->
                fetch_headers call = []
                /\ fetch_body call = FormData (buildFormData o))
            /\ ((forall k, In k (keys o) -> ~ attachment k) ->
                fetch_headers call = [("Content-Type", "application/json")]
                /\ fetch_body call = JsonText (JSON_stringify (VObj o)))))
  /\ (forall calls,
        (List.length (written (res (send_each this response calls w)))
         <= List.length (written (res w)) + 1)%nat).
Proof.
  intros Hon response o attachment.
  assert (Hresp : response = true).
  { unfold response, build_context. simpl. now rewrite Hon. }
  assert (Hnone : (forall k, In k (keys o) -> ~ attachment k) ->
                  isFileRequest o = false).
  { intros Hnone. destruct (isFileRequest o) eqn:F; [|reflexivity].
    apply isFileRequest_spec in F as (k & Hin & Hv & Hs).
    exfalso. apply (Hnone k Hin). split; assumption. }
  assert (Hsome : (exists k, In k (keys o) /\ attachment k) ->
                  isFileRequest o = true).
  { intros (k & Hin & Hv & Hs). now apply isFileRequest_lookup with k. }
  rewrite Hresp. split; [|split].
  - intros Hopen Hno. apply sendRequest_through_sink; [exact Hopen|].
    now apply Hnone.
  - intros Hcase.
    assert (Hoff : finished (res w) = true \/ isFileRequest o = true).
    { destruct Hcase as [H|H]; [now left|right; now apply Hsome]. }
    split; [now apply sendRequest_over_network|]. split.
    + rewrite sendRequest_over_network by exact Hoff.
      apply sendRequest_keeps_res.
    + intros Htok.
      destruct (sendRequest_fetches this method options true w Htok)
        as [p Hp].
      { destruct Hoff as [-> | Hfile]; [reflexivity|].
        fold o. rewrite Hfile. apply andb_false_r. }
      exists p, (fetch_of this method options).
      split; [exact Hp|]. split; [reflexivity|]. split.
      * intros Hatt. unfold fetch_of. fold o. cbn [fetch_headers fetch_body].
        rewrite (Hsome Hatt). split; reflexivity.
      * intros Hno. unfold fetch_of. fold o. cbn [fetch_headers fetch_body].
        rewrite (Hnone Hno). split; reflexivity.
  - intros calls. apply send_each_writes_once.
Qed.

(** ** The polling loop *)

Lemma getUpdates_returned (this : Telegraf) (timeout limit offset : value)
    (p : Promise value) (w w1 : World) :
  getUpdates this timeout limit offset w = (Ok p, w1) ->
  truthy (token this) = true
  /\ polling_started w1 = polling_started w
  /\ polling_offset w1 = polling_offset w.
Proof.
  unfold getUpdates, sendRequest, bind, gets, fetch, throw, ret.
  cbv zeta. simpl.
  destruct (truthy (token this)); simpl; [|discriminate].
  destruct (remote _ _) as [err|data].
  - intros H. injection H as _ <-. auto.
  - destruct (nullish data); [intros H; injection H as _ <-; auto|].
    destruct (truthy (get data "ok")); intros H; injection H as _ <-; auto.
Qed.

Lemma getUpdates_no_throw (this : Telegraf) (timeout limit offset : value)
    (w : World) :
  truthy (token this) = true ->
  exists p w1, getUpdates this timeout limit offset w = (Ok p, w1).
Proof.
  intros Htok.
  unfold getUpdates, sendRequest, bind, gets, fetch, throw, ret.
  cbv zeta. simpl. rewrite Htok. simpl.
  destruct (remote _ _) as [err|data]; [eauto|].
  destruct (nullish data); [eauto|].
  destruct (truthy (get data "ok")); eauto.
Qed.

(** With a token the loop never throws: every error ends in its own
    handler. *)
Lemma pollingLoop_returns (this : Telegraf) (fuel : nat) (w : World) :
  truthy (token this) = true ->
  exists w', pollingLoop this fuel w = (Ok tt, w').
Proof.
  intros Htok. revert w. induction fuel as [|fuel IH]; intros w; simpl.
  - now exists w.
  - unfold bind at 1, gets at 1.
    destruct (polling_started w); simpl; [|now exists w].
    unfold bind at 1, gets at 1. unfold bind at 1, gets at 1.
    unfold bind at 1, gets at 1. unfold bind at 1.
    destruct (getUpdates_no_throw this (polling_timeout w) (polling_limit w)
                (polling_offset w) w Htok) as (p & w1 & ->).
    assert (Hcatch : forall (m : M unit) w0,
               exists w', try_catch m
                 (fun err => console_error (PollingErrorLine err) ;;
                             modify (set_started false)) w0 = (Ok tt, w')).
    { intros m w0. unfold try_catch.
      destruct (m w0) as [[[]|e] w0']; [eauto|].
      unfold bind, console_error, modify. eauto. }
    unfold bind at 1.
    destruct p as [updates|err].
    + unfold ret at 1. apply Hcatch.
    + unfold bind at 1, console_error, modify. unfold bind at 1, sleep, modify.
      unfold ret at 1. apply Hcatch.
Qed.

(** What [handleUpdate] throws at once, it throws before it touched
    anything; otherwise it returns a promise. *)
Lemma handleUpdate_thrown (this : Telegraf) (rawUpdate : value)
    (webHookResponse : bool) (e : exn) (w : World) :
  thrown_at_once rawUpdate = Some e ->
  handleUpdate this rawUpdate webHookResponse w = (Err e, w).
Proof.
  unfold thrown_at_once, handleUpdate.
  destruct (extractUpdate rawUpdate) as [e0|u].
  - intros H. injection H as ->. reflexivity.
  - destruct (negb (truthy (type u))); [|discriminate].
    intros H. injection H as <-. reflexivity.
Qed.

Lemma handleUpdate_started (this : Telegraf) (rawUpdate : value)
    (webHookResponse : bool) (w : World) :
  thrown_at_once rawUpdate = None ->
  exists p w', handleUpdate this rawUpdate webHookResponse w = (Ok p, w').
Proof.
  unfold thrown_at_once, handleUpdate.
  destruct (extractUpdate rawUpdate) as [e0|u]; [discriminate|].
  destruct (negb (truthy (type u))); [discriminate|]. intros _.
  unfold bind, ware_run.
  destruct (compose _ _ _ w) as [[[]|e] w1].
  - unfold then_, bind, modify, ret. eauto.
  - destruct (call_onError this e w1) as [[[]|e'] w2];
      unfold then_, bind, modify, ret; eauto.
Qed.

(** A batch of one update is that update's dispatch. *)
Lemma dispatch_all_one (this : Telegraf) (update : value) (w : World) :
  dispatch_all this [update] w = handleUpdate this update false w.
Proof.
  unfold dispatch_all. cbn [map_handleUpdate].
  destruct (thrown_at_once update) as [e|] eqn:E.
  - now rewrite handleUpdate_thrown with (e := e).
  - reflexivity.
Qed.

(** The [map] over a batch that holds an update [handleUpdate] throws
    at. *)
Lemma map_handleUpdate_thrown (this : Telegraf) (before after : list value)
    (bad : value) (e : exn) :
  (forall update, In update before -> thrown_at_once update = None) ->
  thrown_at_once bad = Some e ->
  map_handleUpdate this (before ++ bad :: after)
  = (map (fun update => handleUpdate this update false) before, Some e).
Proof.
  intros Hbefore Hbad. induction before as [|u before IH]; simpl.
  - now rewrite Hbad.
  - rewrite (Hbefore u) by now left.
    rewrite IH; [reflexivity|]. intros u' Hin. apply Hbefore. now right.
Qed.






(** ** The webhook endpoint *)

(** [res.writeHead(code); res.end()] closes an open response with that
    status, and throws on a finished one, which stays as it was. *)
Lemma writeHead_end (code : Z) (w : World) :
  (writeHead code ;; end_ None) w
  = if finished (res w) then (Err headers_sent, w)
    else (Ok tt, set_res (closed_with code (res w)) w).
Proof.
  unfold writeHead, bind, gets.
  destruct (finished (res w)) eqn:Hfin; [reflexivity|].
  unfold set_statusCode, end_, modify, closed_with. simpl.
  now rewrite Hfin, app_nil_r.
Qed.

(** The [catch] of the listener: the error handler, then 415. *)
Lemma webHookCallback_caught (this : Telegraf) (error : exn) (w : World) :
  (call_onError this error ;; writeHead 415 ;; end_ None ;;
   ret (None : option (Promise unit))) w
  = match call_onError this error w with
    | (Ok _, w') =>
        if finished (res w') then (Err headers_sent, w')
        else (Ok None, set_res (closed_with 415 (res w')) w')
    | (Err e, w') => (Err e, w')
    end.
Proof.
  unfold bind at 1.
  destruct (call_onError this error w) as [[[]|e] w']; [|reflexivity].
  pose proof (writeHead_end 415 w') as H. unfold bind in H |- *.
  destruct (writeHead 415 w') as [[[]|e] w1].
  - destruct (finished (res w')); [discriminate|].
    unfold ret. destruct (end_ None w1) as [[[]|e] w2];
      [now injection H as <-|discriminate].
  - destruct (finished (res w')); [|discriminate].
    now injection H as <- <-.
Qed.

(** C2. A POST to the webhook path with a body that does not parse calls
    the error handler once, with the parse error, and dispatches nothing.
    When the handler returns, the response is closed with status 415
    (should the handler have ended the response itself, [writeHead]
    throws and the response stays as the handler left it).  The default
    handler throws the error again: the callback ends with that error
    and the response is left unanswered. *)
Theorem webHookCallback_unparsable_body
    (this : Telegraf) (webHookPath : string) (req : IncomingMessage)
    (next : option (M unit)) (error : exn) (w : World) :
  req_method req = "POST" ->
  req_url req
  = (if String.eqb webHookPath EmptyString then "/" else webHookPath) ->
  JSON_parse (req_body req) = inl error ->
  (forall w',
      onError this error (set_reported (reported w ++ [error]) w)
      = (Ok tt, w') ->
      webHookCallback this webHookPath req next w
      = if finished (res w') then (Err headers_sent, w')
        else (Ok tt, set_res (closed_with 415 (res w')) w'))
  /\ (onError this = default_onError ->
      webHookCallback this webHookPath req next w
      = (Err error, after_report error w)
      /\ res (after_report error w) = res w
      /\ reported (after_report error w) = (reported w ++ [error])%list).
Proof.
  intros Hm Hu Hparse.
  assert (Hrun : webHookCallback this webHookPath req next w
                 = match call_onError this error w with
                   | (Ok _, w') =>
                       if finished (res w') then (Err headers_sent, w')
                       else (Ok tt, set_res (closed_with 415 (res w')) w')
                   | (Err e, w') => (Err e, w')
                   end).
  { unfold webHookCallback. cbv zeta.
    rewrite Hm, Hu, Hparse, !String.eqb_refl. cbn [negb orb].
    unfold bind at 1, try_catch, throw.
    rewrite webHookCallback_caught.
    destruct (call_onError this error w) as [[[]|e] w']; [|reflexivity].
    destruct (finished (res w')); reflexivity. }
  rewrite Hrun. split.
  - intros w' Hh.
    unfold call_onError, bind, modify. now rewrite Hh.
  - intros Hdef. split; [|split; reflexivity].
    now rewrite call_default_onError.
Qed.

(** ** Further properties of normalisation *)

Lemma scan_types_keeps_subType (update : value) (l : list string) (r : Update) :
  subType (scan_types update l r) = subType r.
Proof.
  revert r. induction l as [|k l IH]; intros r; [reflexivity|].
  unfold scan_types in *. simpl.
  destruct (truthy (get update k)); rewrite IH; reflexivity.
Qed.

(** Once the scan met the one truthy key, or will still meet it, the
    result carries that key. *)
Lemma scan_types_single (update : value) (k : string) (l : list string)
    (r : Update) :
  truthy (get update k) = true ->
  (forall k', In k' l -> k' <> k -> truthy (get update k') = false) ->
  (type r = VStr k /\ payload r = get update k) \/ In k l ->
  type (scan_types update l r) = VStr k
  /\ payload (scan_types update l r) = get update k.
Proof.
  intros Hk. revert r. induction l as [|a l IH]; intros r Hothers Hr.
  - destruct Hr as [Hr | []]. exact Hr.
  - unfold scan_types in *. simpl.
    destruct (String.eqb_spec a k) as [->|Hne].
    + rewrite Hk. apply IH.
      * intros k' Hk' Hne. apply Hothers; [now right|exact Hne].
      * left. now split.
    + rewrite (Hothers a (or_introl eq_refl) Hne). apply IH.
      * intros k' Hk' Hne'. apply Hothers; [now right|exact Hne'].
      * destruct Hr as [Hr | [Heq | Hin]]; [now left|congruence|now right].
Qed.

Lemma scan_types_well_typed (update : value) (catalog l : list string)
    (r : Update) :
  (forall k, In k l -> In k catalog) ->
  well_typed update catalog r ->
  well_typed update catalog (scan_types update l r).
Proof.
  revert r. induction l as [|a l IH]; intros r Hsub Hr; [exact Hr|].
  unfold scan_types in *. simpl.
  destruct (truthy (get update a)) eqn:Ha.
  - apply IH; [intros k Hk; apply Hsub; now right|].
    right. exists a. simpl. repeat split; auto. apply Hsub. now left.
  - apply IH; [intros k Hk; apply Hsub; now right|exact Hr].
Qed.

(** X1. A raw update with exactly one recognised key holding a truthy
    value is of that kind, with that value as payload, wherever and
    however often the key stands in the catalog. *)
Theorem extractUpdate_single_key (o : obj) (k : string) :
  In k updateTypes ->
  truthy (lookup o k) = true ->
  (forall k', In k' updateTypes -> k' <> k -> truthy (lookup o k') = false) ->
  exists u,
    extractUpdate (VObj o) = inr u
    /\ type u = VStr k
    /\ payload u = lookup o k.
Proof.
  intros Hin Hk Hothers.
  eexists. split; [apply extractUpdate_unfold|]. cbv zeta.
  destruct (scan_types_single (VObj o) k updateTypes empty_result Hk Hothers
              (or_intror Hin)) as [Ht Hp].
  destruct (truthy (lookup o "message")).
  - destruct (scan_subTypes_keeps (lookup o "message") messageSubTypes
                (scan_types (VObj o) updateTypes empty_result)) as [Ht' Hp'].
    rewrite Ht', Hp'. now split.
  - now split.
Qed.

(** X2. Whatever the raw update, the normalised update either has no type
    and no payload, or its type is a key of the catalog and its payload
    is the truthy value the raw update holds under that key. *)
Theorem extractUpdate_typed_payload (o : obj) (u : Update) :
  extractUpdate (VObj o) = inr u ->
  (type u = VUndefined /\ payload u = VUndefined)
  \/ exists k, In k updateTypes /\ type u = VStr k
               /\ payload u = lookup o k /\ truthy (payload u) = true.
Proof.
  rewrite extractUpdate_unfold. cbv zeta. intros H. injection H as <-.
  assert (Hscan : well_typed (VObj o) updateTypes
                    (scan_types (VObj o) updateTypes empty_result)).
  { apply scan_types_well_typed; [auto|]. left. now split. }
  destruct (truthy (lookup o "message")); [|exact Hscan].
  destruct (scan_subTypes_keeps (lookup o "message") messageSubTypes
              (scan_types (VObj o) updateTypes empty_result)) as [Ht Hp].
  unfold well_typed in Hscan. rewrite Ht, Hp. exact Hscan.
Qed.

(** X3. The sub-type comes from the message alone.  Without a truthy
    [message] member there is no sub-type, whatever the kind; with one,
    the sub-type is the last entry of the catalog the message carries,
    also when another kind gave the type. *)
Theorem extractUpdate_subType_of_message (o : obj) :
  (truthy (lookup o "message") = false ->
   exists u, extractUpdate (VObj o) = inr u /\ subType u = VUndefined)
  /\ (forall sbefore safter m,
         truthy (lookup o "message") = true ->
         messageSubTypes = (sbefore ++ m :: safter)%list ->
         truthy (get (lookup o "message") m) = true ->
         (forall m', In m' safter ->
            truthy (get (lookup o "message") m') = false) ->
         exists u, extractUpdate (VObj o) = inr u /\ subType u = VStr m).
Proof.
  split.
  - intros Hm. eexists. split; [apply extractUpdate_unfold|]. cbv zeta.
    rewrite Hm. apply scan_types_keeps_subType.
  - intros sbefore safter m Hm Hcat Hhit Hrest.
    eexists. split; [apply extractUpdate_unfold|]. cbv zeta.
    rewrite Hm. unfold scan_subTypes. rewrite Hcat.
    rewrite scan_last_hit
      with (hit := fun mt => truthy (get (lookup o "message") mt))
      by assumption.
    reflexivity.
Qed.

(** ** Further properties of composition *)

Lemma compose_app (a b : list Middleware) (this : Context)
    (next : option Generator) :
  compose (a ++ b) this next = compose a this (Some (compose b this next)).
Proof. rewrite !compose_fold. apply fold_right_app. Qed.

(** X4. Composition is flat: a chain composed of two parts is the first
    part continued by the composed second part, and a composed chain
    used as one handler of a chain is its handlers spliced in. *)
Theorem compose_splices (a b : list Middleware) (this : Context)
    (next : option Generator) :
  compose (a ++ b) this next = compose a this (Some (compose b this next))
  /\ compose (composed a :: b) this next = compose (a ++ b) this next.
Proof.
  split; [apply compose_app|].
  rewrite compose_cons, compose_app. reflexivity.
Qed.

Lemma use_each_middleware (fns : list Middleware) (this : Telegraf) :
  middleware (use_each fns this) = (middleware this ++ fns)%list.
Proof.
  revert this. induction fns as [|fn fns IH]; intros this; simpl.
  - now rewrite app_nil_r.
  - unfold use_each in *. simpl. rewrite IH. simpl.
    now rewrite <- app_assoc.
Qed.

(** A dispatch whose chain runs to the end. *)
Lemma handleUpdate_resolved (this : Telegraf) (o : obj) (u : Update)
    (webHookResponse : bool) (w w' : World) :
  extractUpdate (VObj o) = inr u ->
  truthy (type u) = true ->
  compose (middleware this) (build_context this u webHookResponse) None w
  = (Ok tt, w') ->
  handleUpdate this (VObj o) webHookResponse w
  = (Ok (Resolved tt),
     set_offset (add (lookup o "update_id") (VNum 1)) w').
Proof.
  intros Hu Hty Hrun. unfold handleUpdate. rewrite Hu, Hty. simpl.
  unfold bind, ware_run.
  change (compose [composed (middleware this)]
            (build_context this u webHookResponse) None)
    with (compose (middleware this)
            (build_context this u webHookResponse) None).
  rewrite Hrun. reflexivity.
Qed.

(** X5. Handlers run in the order they were registered: after [use] was
    called with any number of recording handlers on a bot without
    handlers, the dispatch of a recognised update enters them in that
    order, leaves them in the reverse order, and moves the offset. *)
Theorem handleUpdate_runs_in_registration_order
    (this : Telegraf) (names : list string) (o : obj) (u : Update)
    (webHookResponse : bool) (w : World) :
  middleware this = [] ->
  extractUpdate (VObj o) = inr u ->
  truthy (type u) = true ->
  handleUpdate (use_each (map recording names) this) (VObj o)
    webHookResponse w
  = (Ok (Resolved tt),
     set_offset (add (lookup o "update_id") (VNum 1))
       (set_trace (trace w ++ map Enter names ++ map Exit (rev names)) w)).
Proof.
  intros Hnone Hu Hty.
  apply handleUpdate_resolved with (u := u); try assumption.
  rewrite use_each_middleware, Hnone. simpl.
  rewrite <- (app_nil_r (map recording names)).
  rewrite compose_recording_prefix. simpl.
  now rewrite <- app_assoc.
Qed.

Lemma handler_skips (eventTypes : list string) (fns : list Middleware)
    (this : Context) (next : Generator) :
  indexOf_found eventTypes (eventType this) = false ->
  indexOf_found eventTypes (eventSubType this) = false ->
  handler eventTypes fns this next = next.
Proof. intros H1 H2. unfold handler. rewrite H1, H2. reflexivity. Qed.

(** X6. A handler for event types that the update is not of is
    transparent: wherever it stands in a chain, the chain runs as without
    it. *)
Theorem handler_other_types_is_transparent
    (eventTypes : list string) (fns pre rest : list Middleware)
    (this : Context) (next : option Generator) :
  indexOf_found eventTypes (eventType this) = false ->
  indexOf_found eventTypes (eventSubType this) = false ->
  compose (pre ++ handler eventTypes fns :: rest) this next
  = compose (pre ++ rest) this next.
Proof.
  intros H1 H2. rewrite !compose_app, compose_cons.
  now rewrite handler_skips.
Qed.

Lemma handler_runs (eventTypes : list string) (fns rest : list Middleware)
    (this : Context) (next : option Generator) (w : World) :
  indexOf_found eventTypes (eventType this)
  || indexOf_found eventTypes (eventSubType this) = true ->
  compose (handler eventTypes fns :: rest) this next w
  = match compose fns this None w with
    | (Ok _, w') => compose rest this next w'
    | (Err e, w') => (Err e, w')
    end.
Proof.
  intros H. rewrite compose_cons. unfold handler. rewrite H.
  unfold bind. destruct (compose fns this None w) as [[[]|e] w']; reflexivity.
Qed.

(** X7. A handler for the update's type or sub-type runs its handlers as
    a chain of their own, to the end, before the rest of the outer chain:
    the inner handlers are left before the outer ones are entered, and an
    inner handler that does not use its continuation stops the inner
    chain only. *)
Theorem handler_inner_chain_completes_first
    (eventTypes : list string) (inner outer : list string) (b : string)
    (this : Context) (w : World) :
  indexOf_found eventTypes (eventType this)
  || indexOf_found eventTypes (eventSubType this) = true ->
  compose (handler eventTypes (map recording inner ++ [stopping b])
             :: map recording outer) this None w
  = (Ok tt,
     set_trace (trace w ++ map Enter inner ++ [Enter b; Exit b]
                ++ map Exit (rev inner)
                ++ map Enter outer ++ map Exit (rev outer)) w).
Proof.
  intros H. rewrite handler_runs by exact H.
  rewrite compose_recording_prefix, compose_cons.
  unfold stopping at 1, bind, mark, modify. simpl.
  rewrite <- (app_nil_r (map recording outer)).
  rewrite compose_recording_prefix. simpl.
  f_equal. rewrite !set_trace_twice. f_equal.
  repeat rewrite <- app_assoc. reflexivity.
Qed.

(** ** Further properties of remote invocation *)

(** X8. A call is a file request exactly when one of its options is
    truthy and has a truthy [source]; a call without options is none. *)
Theorem isFileRequest_iff (options : obj) :
  (isFileRequest options = true
   <-> exists k, In k (keys options)
                 /\ truthy (lookup options k) = true
                 /\ truthy (get (lookup options k) "source") = true)
  /\ isFileRequest (assign_empty None) = false.
Proof. split; [apply isFileRequest_spec|reflexivity]. Qed.

(** X9. With a token, a remote call does exactly one of two things: it
    is answered in the open webhook response, and nothing is fetched; or
    it is fetched once, from the URL of the method, and the response is
    left alone.  What is fetched is the JSON text of the options, marked
    as JSON, when none of them is an attachment, and the form that
    [buildFormData] makes of them, with no header, when one is. *)
Theorem sendRequest_sink_or_one_fetch
    (this : Telegraf) (method : string) (options : option obj)
    (response : bool) (w : World) :
  truthy (token this) = true ->
  (response = true /\ finished (res w) = false
   /\ isFileRequest (assign_empty options) = false
   /\ sendRequest this method options response w
      = (Ok (Resolved VUndefined),
         set_res (answered (res w)
                    (JSON_stringify
                       (VObj (assign (assign_empty options) "method"
                                (VStr method))))) w))
  \/ ((response = false \/ finished (res w) = true
       \/ isFileRequest (assign_empty options) = true)
      /\ exists p,
           sendRequest this method options response w
           = (Ok p,
              set_network
                (network w
                 ++ [{| fetch_url := apiRoot this ++ "/bot"
                                     ++ ToString (token this) ++ "/"
                                     ++ method;
                        fetch_headers :=
                          if isFileRequest (assign_empty options) then []
                          else [("Content-Type", "application/json")];
                        fetch_body :=
                          if isFileRequest (assign_empty options)
                          then FormData (buildFormData (assign_empty options))
                          else JsonText
                                 (JSON_stringify
                                    (VObj (assign_empty options))) |}])
                w)).
Proof.
  intros Htok.
  destruct (response && negb (finished (res w))
            && negb (isFileRequest (assign_empty options))) eqn:Hcond.
  - left. pose proof (sendRequest_sink this method options response w Hcond).
    apply andb_prop in Hcond as [Hcond Hfile].
    apply andb_prop in Hcond as [Hresp Hfin].
    apply negb_true_iff in Hfile, Hfin. auto.
  - right. split; [|now apply sendRequest_fetches].
    destruct response; [|now left].
    destruct (finished (res w)); [now right; left|].
    destruct (isFileRequest (assign_empty options)); [now right; right|].
    discriminate.
Qed.

(** X10. Without a token nothing is ever fetched: a call that is not
    answered in the webhook response throws "Telegram Bot Token is
    required" and leaves the world as it was; a call answered in the
    response needs no token. *)
Theorem sendRequest_without_token
    (this : Telegraf) (method : string) (options : option obj)
    (response : bool) (w : World) :
  truthy (token this) = false ->
  network (snd (sendRequest this method options response w)) = network w
  /\ (response && negb (finished (res w))
      && negb (isFileRequest (assign_empty options)) = false ->
      sendRequest this method options response w
      = (Err (Error "Telegram Bot Token is required"), w))
  /\ (response && negb (finished (res w))
      && negb (isFileRequest (assign_empty options)) = true ->
      fst (sendRequest this method options response w)
      = Ok (Resolved VUndefined)).
Proof.
  intros Htok.
  assert (Hthrow : response && negb (finished (res w))
                   && negb (isFileRequest (assign_empty options)) = false ->
                   sendRequest this method options response w
                   = (Err (Error "Telegram Bot Token is required"), w)).
  { intros Hcond. unfold sendRequest, bind, gets. cbv zeta.
    rewrite Hcond, Htok. reflexivity. }
  split; [|split].
  - destruct (response && negb (finished (res w))
              && negb (isFileRequest (assign_empty options))) eqn:Hcond.
    + now rewrite sendRequest_sink.
    + now rewrite Hthrow.
  - exact Hthrow.
  - intros Hcond. now rewrite sendRequest_sink.
Qed.

Lemma keys_assign (o : obj) (k : string) (v : value) :
  keys (assign o k v)
  = if existsb (String.eqb k) (keys o) then keys o else (keys o ++ [k])%list.
Proof.
  induction o as [|[k0 v0] o IH]; simpl; [reflexivity|].
  rewrite (String.eqb_sym k k0).
  destruct (String.eqb_spec k0 k) as [->|Hne]; simpl; [reflexivity|].
  rewrite IH. destruct (existsb (String.eqb k) (keys o)); reflexivity.
Qed.

(** X11. The object written to the webhook response carries the method
    of the call under [method], in place of an option of that name if
    there was one, and every other option as it was given, in the
    order given. *)
Theorem sendRequest_sink_body
    (this : Telegraf) (method : string) (options : obj) (w : World) :
  finished (res w) = false ->
  isFileRequest options = false ->
  exists body,
    sendRequest this method (Some options) true w
    = (Ok (Resolved VUndefined),
       set_res (answered (res w) (JSON_stringify (VObj body))) w)
    /\ lookup body "method" = VStr method
    /\ (forall k, k <> "method" -> lookup body k = lookup options k)
    /\ keys body
       = if existsb (String.eqb "method") (keys options)
         then keys options else (keys options ++ ["method"])%list.
Proof.
  intros Hopen Hfile.
  exists (assign options "method" (VStr method)).
  split; [|split; [|split]].
  - apply sendRequest_through_sink; assumption.
  - rewrite lookup_assign. now rewrite String.eqb_refl.
  - intros k Hk. rewrite lookup_assign.
    destruct (String.eqb_spec "method" k); [congruence|reflexivity].
  - apply keys_assign.
Qed.

Lemma lookup_Object_assign_absent (target source : obj) (k : string) :
  ~ In k (keys source) ->
  lookup (Object_assign target source) k = lookup target k.
Proof.
  revert target. induction source as [|[k0 v0] source IH]; intros target H;
    [reflexivity|].
  unfold Object_assign in *. simpl. rewrite IH.
  - rewrite lookup_assign.
    destruct (String.eqb_spec k0 k) as [->|Hne]; [|reflexivity].
    exfalso. apply H. now left.
  - intros Hin. apply H. now right.
Qed.

Lemma lookup_Object_assign_present (target source : obj) (k : string) :
  NoDup (keys source) ->
  In k (keys source) ->
  lookup (Object_assign target source) k = lookup source k.
Proof.
  revert target. induction source as [|[k0 v0] source IH];
    intros target Hnodup Hin; [destruct Hin|].
  simpl in Hnodup. inversion Hnodup as [|? ? Hfresh Hrest]; subst.
  change (Object_assign target ((k0, v0) :: source))
    with (Object_assign (assign target k0 v0) source).
  simpl. destruct (String.eqb_spec k0 k) as [->|Hne].
  - rewrite lookup_Object_assign_absent by exact Hfresh.
    rewrite lookup_assign. now rewrite String.eqb_refl.
  - apply IH; [exact Hrest|]. simpl in Hin.
    destruct Hin as [Heq|Hin]; [congruence|exact Hin].
Qed.

Lemma keys_Object_assign (target source : obj) (k : string) :
  In k (keys target) -> In k (keys (Object_assign target source)).
Proof.
  revert target. induction source as [|[k0 v0] source IH]; intros target H;
    [exact H|].
  change (Object_assign target ((k0, v0) :: source))
    with (Object_assign (assign target k0 v0) source).
  apply IH. rewrite keys_assign.
  destruct (existsb (String.eqb k0) (keys target)); [exact H|].
  apply in_or_app. now left.
Qed.

(** X12. What [extra] holds wins: the options [sendMessage] sends are
    those of [extra], and the chat and the text given as arguments only
    where [extra] has no member of that name. *)
Theorem sendMessage_extra_overrides
    (this : Telegraf) (response : bool) (chatId text : value) (extra : obj) :
  NoDup (keys extra) ->
  exists options,
    sendMessage this response chatId text extra
    = sendRequest this "sendMessage" (Some options) response
    /\ (forall k, In k (keys extra) -> lookup options k = lookup extra k)
    /\ (~ In "chat_id" (keys extra) -> lookup options "chat_id" = chatId)
    /\ (~ In "text" (keys extra) -> lookup options "text" = text).
Proof.
  intros Hnodup.
  exists (Object_assign [("chat_id", chatId); ("text", text)] extra).
  split; [reflexivity|]. split; [|split].
  - intros k Hk. now apply lookup_Object_assign_present.
  - intros H. now rewrite lookup_Object_assign_absent.
  - intros H. now rewrite lookup_Object_assign_absent.
Qed.

Lemma lookup_second (k1 k2 : string) (v1 v2 : value) :
  k2 <> k1 -> lookup [(k1, v1); (k2, v2)] k2 = v2.
Proof.
  intros Hne. cbn [lookup].
  destruct (String.eqb_spec k1 k2) as [Heq|_]; [congruence|].
  now rewrite String.eqb_refl.
Qed.

(** A sender whose options hold an attachment under [key] goes over the
    network. *)
Lemma upload_not_through_sink (this : Telegraf) (method key : string)
    (chatId media : value) (extra : obj) (w : World) :
  key <> "chat_id" ->
  truthy (get media "source") = true ->
  ~ In key (keys extra) ->
  sendRequest this method
    (Some (Object_assign [("chat_id", chatId); (key, media)] extra)) true w
  = sendRequest this method
      (Some (Object_assign [("chat_id", chatId); (key, media)] extra)) false w.
Proof.
  intros Hkey Hsource Hextra. apply sendRequest_over_network. right.
  unfold assign_empty.
  apply isFileRequest_lookup with (k := key).
  - apply keys_Object_assign. cbn [keys map fst]. right. now left.
  - rewrite lookup_Object_assign_absent by exact Hextra.
    rewrite lookup_second by exact Hkey.
    destruct media; try discriminate. reflexivity.
  - rewrite lookup_Object_assign_absent by exact Hextra.
    now rewrite lookup_second.
Qed.

(** X13. An upload is never answered in the webhook response: a media
    sender whose media has a truthy [source] makes the call it makes
    without a response, open or not. *)
Theorem media_senders_upload_over_network
    (this : Telegraf) (chatId media : value) (extra : obj) (w : World) :
  truthy (get media "source") = true ->
  (~ In "photo" (keys extra) ->
   sendPhoto this true chatId media extra w
   = sendPhoto this false chatId media extra w)
  /\ (~ In "document" (keys extra) ->
      sendDocument this true chatId media extra w
      = sendDocument this false chatId media extra w)
  /\ (~ In "audio" (keys extra) ->
      sendAudio this true chatId media extra w
      = sendAudio this false chatId media extra w)
  /\ (~ In "sticker" (keys extra) ->
      sendSticker this true chatId media extra w
      = sendSticker this false chatId media extra w)
  /\ (~ In "video" (keys extra) ->
      sendVideo this true chatId media extra w
      = sendVideo this false chatId media extra w)
  /\ (~ In "voice" (keys extra) ->
      sendVoice this true chatId media extra w
      = sendVoice this false chatId media extra w).
Proof.
  intros Hsource.
  repeat split; intros Hextra;
    apply upload_not_through_sink; auto; discriminate.
Qed.

(** ** Further properties of the dispatch *)

Lemma handleUpdate_resolved_offset (this : Telegraf) (rawUpdate : value)
    (webHookResponse : bool) (w w' : World) :
  handleUpdate this rawUpdate webHookResponse w = (Ok (Resolved tt), w') ->
  polling_offset w' = add (get rawUpdate "update_id") (VNum 1).
Proof.
  unfold handleUpdate.
  destruct (extractUpdate rawUpdate) as [e|u]; [discriminate|].
  destruct (negb (truthy (type u))); [discriminate|].
  unfold bind, ware_run.
  destruct (compose _ _ _ w) as [[[]|e] w1].
  - simpl. intros H. injection H as <-. reflexivity.
  - destruct (call_onError this e w1) as [[[]|e'] w2]; simpl.
    + intros H. injection H as <-. reflexivity.
    + discriminate.
Qed.

(** X14. The offset follows [update_id + 1] blindly: after the
    successful dispatch of an update that has no [update_id] the offset
    is NaN, and after one whose [update_id] is null it is 1. *)
Theorem handleUpdate_offset_without_id
    (this : Telegraf) (o : obj) (webHookResponse : bool) (w w' : World) :
  handleUpdate this (VObj o) webHookResponse w = (Ok (Resolved tt), w') ->
  (~ In "update_id" (keys o) -> polling_offset w' = VNaN)
  /\ (lookup o "update_id" = VNull -> polling_offset w' = VNum 1).
Proof.
  intros H. apply handleUpdate_resolved_offset in H. simpl in H.
  split; intros Hid.
  - now rewrite H, lookup_absent.
  - now rewrite H, Hid.
Qed.

(** X15. With [webHookAnswer] off, or in a dispatch that was given no
    webhook response, the senders never touch the response. *)
Theorem senders_leave_response_alone
    (this : Telegraf) (update : Update) (webHookResponse : bool)
    (method : string) (options : option obj) (w : World) :
  webHookAnswer this = false \/ webHookResponse = false ->
  res (snd (sendRequest this method options
              (via_sink (build_context this update webHookResponse)) w))
  = res w.
Proof.
  intros H.
  assert (Hoff : via_sink (build_context this update webHookResponse)
                 = false).
  { unfold build_context. simpl.
    destruct H as [-> | ->]; [reflexivity|apply andb_false_r]. }
  rewrite Hoff. apply sendRequest_keeps_res.
Qed.

Lemma truthy_member (v : value) (k : string) :
  truthy (get v k) = true -> truthy v = true.
Proof. destruct v; simpl; try discriminate; reflexivity. Qed.

(** X16. The chat of a dispatch: the [chat.id] of the payload when it is
    truthy; otherwise the [message.chat.id] of the payload when that is
    truthy; otherwise a falsy value, and then no sender is bound. *)
Theorem build_context_chat
    (this : Telegraf) (update : Update) (webHookResponse : bool) :
  let own := get (get (payload update) "chat") "id" in
  let inherited := get (get (get (payload update) "message") "chat") "id" in
  let ctx := build_context this update webHookResponse in
  (truthy own = true -> chat ctx = own)
  /\ (truthy own = false -> truthy inherited = true -> chat ctx = inherited)
  /\ (truthy own = false -> truthy inherited = false ->
      truthy (chat ctx) = false).
Proof.
  cbv zeta. unfold build_context. cbn [chat].
  set (p := payload update).
  assert (Hfirst : truthy (get (get p "chat") "id") = false ->
                   truthy (and_ (get p "chat") (get (get p "chat") "id"))
                   = false).
  { intros H. unfold and_.
    destruct (truthy (get p "chat")) eqn:E; [exact H|exact E]. }
  split; [|split].
  - intros Hown. unfold or_, and_ at 1 2.
    rewrite (truthy_member _ _ Hown). now rewrite Hown.
  - intros Hown Hinh. unfold or_. rewrite (Hfirst Hown).
    unfold and_.
    pose proof (truthy_member _ _ Hinh) as Hchat.
    rewrite (truthy_member _ _ Hchat). now rewrite Hchat.
  - intros Hown Hinh. unfold or_. rewrite (Hfirst Hown).
    unfold and_.
    destruct (truthy (get p "message")) eqn:Em; [|exact Em].
    destruct (truthy (get (get p "message") "chat")) eqn:Ec;
      [exact Hinh|exact Ec].
Qed.

(** X17. A reply in a webhook dispatch: with [webHookAnswer] on and the
    response open, the dispatch of an update of a chat to a bot whose
    one handler replies writes the reply for that chat, as a
    [sendMessage] call, into the response, fetches nothing, and moves the
    offset. *)
Theorem handleUpdate_replies_in_response
    (this options : Telegraf) (text : string) (o : obj) (u : Update)
    (n : Z) (w : World) :
  middleware this = [replying options text] ->
  webHookAnswer this = true ->
  finished (res w) = false ->
  extractUpdate (VObj o) = inr u ->
  truthy (type u) = true ->
  chat (build_context this u true) = VNum n ->
  n <> 0%Z ->
  handleUpdate this (VObj o) true w
  = (Ok (Resolved tt),
     set_offset (add (lookup o "update_id") (VNum 1))
       (set_res
          (answered (res w)
             (JSON_stringify
                (VObj [("chat_id", VNum n); ("text", VStr text);
                       ("method", VStr "sendMessage")]))) w)).
Proof.
  intros Hmw Hon Hopen Hu Hty Hchat Hn.
  apply handleUpdate_resolved with (u := u); try assumption.
  rewrite Hmw, compose_cons. unfold replying, await, bind.
  rewrite Hchat.
  assert (Hsink : via_sink (build_context this u true) = true).
  { unfold build_context. simpl. now rewrite Hon. }
  rewrite Hsink. unfold sendMessage. cbn [fold_left].
  rewrite sendRequest_through_sink; [reflexivity|exact Hopen|].
  unfold assign_empty.
  destruct (isFileRequest _) eqn:F; [|reflexivity].
  apply isFileRequest_spec in F as (k & Hin & _ & Hs).
  simpl in Hin. destruct Hin as [<-|[<-|[]]]; simpl in Hs; discriminate.
Qed.

(** ** Further properties of the webhook endpoint *)

Lemma webHookCallback_other_requests_aux
    (this : Telegraf) (webHookPath : string) (req : IncomingMessage)
    (w : World) :
  req_method req <> "POST" \/ req_url req <> the_path webHookPath ->
  webHookCallback this webHookPath req None w
  = (Ok tt, set_res (closed_with 403 (res w)) w)
  /\ forall next, webHookCallback this webHookPath req (Some next) w = next w.
Proof.
  intros H. unfold webHookCallback. cbv zeta. fold (the_path webHookPath).
  assert (Hcond : negb (String.eqb (req_method req) "POST")
                  || negb (String.eqb (req_url req) (the_path webHookPath))
                  = true).
  { destruct H as [H | H].
    - destruct (String.eqb_spec (req_method req) "POST"); [contradiction|].
      reflexivity.
    - destruct (String.eqb_spec (req_url req) (the_path webHookPath));
        [contradiction|].
      apply orb_true_r. }
  rewrite Hcond. split; [|reflexivity].
  unfold bind, set_statusCode, end_, modify, closed_with. simpl.
  destruct (finished (res w)) eqn:Hfin; [reflexivity|].
  now rewrite app_nil_r.
Qed.

(** X18. A request that is not a POST to the webhook path is not read:
    without a fallback it is answered 403 and nothing else happens,
    whatever its body; with a fallback, the fallback is all that runs. *)
Theorem webHookCallback_other_requests
    (this : Telegraf) (webHookPath : string) (req : IncomingMessage)
    (w : World) :
  req_method req <> "POST" \/ req_url req <> the_path webHookPath ->
  webHookCallback this webHookPath req None w
  = (Ok tt, set_res (closed_with 403 (res w)) w)
  /\ forall next, webHookCallback this webHookPath req (Some next) w = next w.
Proof. apply webHookCallback_other_requests_aux. Qed.

(** The callback on a request for the webhook, by what became of the
    body. *)
Lemma webHookCallback_matching
    (this : Telegraf) (webHookPath : string) (req : IncomingMessage)
    (next : option (M unit)) (w : World) :
  req_method req = "POST" ->
  req_url req = the_path webHookPath ->
  webHookCallback this webHookPath req next w
  = let closed code w0 :=
        if finished (res w0) then (Err headers_sent, w0)
        else (Ok tt, set_res (closed_with code (res w0)) w0) in
    let caught error w0 :=
        match call_onError this error w0 with
        | (Ok _, w') => closed 415%Z w'
        | (Err e, w') => (Err e, w')
        end in
    match JSON_parse (req_body req) with
    | inl error => caught error w
    | inr update =>
        match handleUpdate this update true w with
        | (Ok (Resolved _), w1) =>
            if finished (res w1) then (Ok tt, w1)
            else (Ok tt, set_res (closed_with 200 (res w1)) w1)
        | (Ok (Rejected _), w1) => closed 500%Z w1
        | (Err error, w1) => caught error w1
        end
    end.
Proof.
  intros Hm Hu. unfold webHookCallback. cbv zeta.
  fold (the_path webHookPath). rewrite Hm, Hu, !String.eqb_refl.
  cbn [negb orb]. unfold bind at 1, try_catch, throw.
  destruct (JSON_parse (req_body req)) as [error|update].
  - rewrite webHookCallback_caught.
    destruct (call_onError this error w) as [[[]|e] w']; [|reflexivity].
    destruct (finished (res w')); reflexivity.
  - unfold bind at 1.
    destruct (handleUpdate this update true w) as [[[[]|e]|e] w1].
    + unfold ret at 1. unfold bind at 1, gets.
      destruct (finished (res w1)) eqn:Hfin; cbn [negb]; [reflexivity|].
      now rewrite writeHead_end, Hfin.
    + unfold ret at 1. now rewrite writeHead_end.
    + rewrite webHookCallback_caught.
      destruct (call_onError this e w1) as [[[]|e'] w']; [|reflexivity].
      destruct (finished (res w')); reflexivity.
Qed.

(** X19. Every request is answered unless the error handler throws:
    whenever the callback returns (no fallback given), the response is
    finished; and an error escapes the callback only when the error
    handler threw it, or when [writeHead] found the response finished
    already, which it then still is. *)
Theorem webHookCallback_always_answers
    (this : Telegraf) (webHookPath : string) (req : IncomingMessage)
    (w w' : World) :
  (webHookCallback this webHookPath req None w = (Ok tt, w') ->
   finished (res w') = true)
  /\ (forall e,
         webHookCallback this webHookPath req None w = (Err e, w') ->
         (exists error w0, call_onError this error w0 = (Err e, w'))
         \/ (e = headers_sent /\ finished (res w') = true)).
Proof.
  destruct (String.eqb_spec (req_method req) "POST") as [Hm|Hm].
  - destruct (String.eqb_spec (req_url req) (the_path webHookPath))
      as [Hu|Hu].
    + rewrite (webHookCallback_matching this webHookPath req None w Hm Hu).
      cbv zeta.
      assert (Hclosed : forall code w0,
                 ((if finished (res w0) then (Err headers_sent, w0)
                   else (Ok tt, set_res (closed_with code (res w0)) w0))
                  = (Ok tt, w') -> finished (res w') = true)
                 /\ (forall e,
                        (if finished (res w0)
                         then (Err headers_sent, w0)
                         else (Ok tt, set_res (closed_with code (res w0)) w0))
                        = (Err e : Outcome unit, w') ->
                        e = headers_sent /\ finished (res w') = true)).
      { intros code w0. destruct (finished (res w0)) eqn:Hfin; split.
        - discriminate.
        - intros e H. injection H as <- <-. now split.
        - intros H. injection H as <-. reflexivity.
        - discriminate. }
      assert (Hcaught : forall error w0,
                 (match call_onError this error w0 with
                  | (Ok _, w1) =>
                      if finished (res w1) then (Err headers_sent, w1)
                      else (Ok tt, set_res (closed_with 415 (res w1)) w1)
                  | (Err e, w1) => (Err e, w1)
                  end = (Ok tt, w') -> finished (res w') = true)
                 /\ (forall e,
                        match call_onError this error w0 with
                        | (Ok _, w1) =>
                            if finished (res w1) then (Err headers_sent, w1)
                            else (Ok tt,
                                  set_res (closed_with 415 (res w1)) w1)
                        | (Err e, w1) => (Err e, w1)
                        end = (Err e, w') ->
                        (exists error w0,
                            call_onError this error w0 = (Err e, w'))
                        \/ (e = headers_sent /\ finished (res w') = true))).
      { intros error w0.
        destruct (call_onError this error w0) as [[[]|e0] w1] eqn:E.
        - destruct (Hclosed 415%Z w1) as [Hok Herr]. split; [exact Hok|].
          intros e H. right. now apply Herr.
        - split; [discriminate|].
          intros e H. injection H as <- <-. left. eauto. }
      destruct (JSON_parse (req_body req)) as [error|update];
        [apply Hcaught|].
      destruct (handleUpdate this update true w) as [[[[]|e]|e] w1];
        [| |apply Hcaught].
      * destruct (finished (res w1)) eqn:Hfin; split; try discriminate;
          intros H; injection H as <-; [exact Hfin|reflexivity].
      * destruct (Hclosed 500%Z w1) as [Hok Herr]. split; [exact Hok|].
        intros e0 H. right. now apply Herr.
    + destruct (webHookCallback_other_requests_aux this webHookPath req w
                  (or_intror Hu)) as [-> _].
      split; [|discriminate]. intros H. injection H as <-. reflexivity.
  - destruct (webHookCallback_other_requests_aux this webHookPath req w
                (or_introl Hm)) as [-> _].
    split; [|discriminate]. intros H. injection H as <-. reflexivity.
Qed.

(** X20. A body that parses to an update of no recognised kind is
    treated as a body that does not parse: the error handler is called
    with "Undefined update type", and when it returns the answer is 415,
    not 500 (should the handler have ended the response itself,
    [writeHead] throws and the response stays as the handler left
    it). *)
Theorem webHookCallback_unrecognised_update
    (this : Telegraf) (webHookPath : string) (req : IncomingMessage)
    (next : option (M unit)) (o : obj) (w w' : World) :
  req_method req = "POST" ->
  req_url req = the_path webHookPath ->
  JSON_parse (req_body req) = inr (VObj o) ->
  (forall k, In k updateTypes -> truthy (lookup o k) = false) ->
  onError this (Error "Undefined update type")
    (set_reported (reported w ++ [Error "Undefined update type"]) w)
  = (Ok tt, w') ->
  webHookCallback this webHookPath req next w
  = if finished (res w') then (Err headers_sent, w')
    else (Ok tt, set_res (closed_with 415 (res w')) w').
Proof.
  intros Hm Hu Hparse Hnone Hh.
  rewrite (webHookCallback_matching this webHookPath req next w Hm Hu).
  cbv zeta. rewrite Hparse, handleUpdate_untyped by exact Hnone.
  unfold call_onError, bind, modify. now rewrite Hh.
Qed.

(** X21. The answer to a dispatched update: 200 when the dispatch
    succeeded and left the response open; nothing more when it succeeded
    and a call was answered in the response, which stays as that call
    left it; 500 when the dispatch was rejected and left the response
    open; and when it was rejected after a call was answered in the
    response, [writeHead] throws, nothing catches the error, and the
    answer the client got is that call. *)
Theorem webHookCallback_dispatch_status
    (this : Telegraf) (webHookPath : string) (req : IncomingMessage)
    (next : option (M unit)) (update : value) (w w1 : World) :
  req_method req = "POST" ->
  req_url req = the_path webHookPath ->
  JSON_parse (req_body req) = inr update ->
  (handleUpdate this update true w = (Ok (Resolved tt), w1) ->
   finished (res w1) = false ->
   webHookCallback this webHookPath req next w
   = (Ok tt, set_res (closed_with 200 (res w1)) w1))
  /\ (handleUpdate this update true w = (Ok (Resolved tt), w1) ->
      finished (res w1) = true ->
      webHookCallback this webHookPath req next w = (Ok tt, w1))
  /\ (forall e,
         handleUpdate this update true w = (Ok (Rejected e), w1) ->
         finished (res w1) = false ->
         webHookCallback this webHookPath req next w
         = (Ok tt, set_res (closed_with 500 (res w1)) w1))
  /\ (forall e,
         handleUpdate this update true w = (Ok (Rejected e), w1) ->
         finished (res w1) = true ->
         webHookCallback this webHookPath req next w
         = (Err headers_sent, w1)).
Proof.
  intros Hm Hu Hparse.
  rewrite (webHookCallback_matching this webHookPath req next w Hm Hu).
  cbv zeta. rewrite Hparse.
  split; [|split; [|split]].
  - intros -> ->. reflexivity.
  - intros -> ->. reflexivity.
  - intros e -> ->. reflexivity.
  - intros e -> ->. reflexivity.
Qed.

(** ** Further properties of the polling loop *)

Lemma pollingLoop_stopped (this : Telegraf) (fuel : nat) (w : World) :
  polling_started w = false -> pollingLoop this fuel w = (Ok tt, w).
Proof.
  intros H. destruct fuel as [|fuel]; [reflexivity|].
  simpl. unfold bind at 1, gets at 1. now rewrite H.
Qed.

(** One iteration, once the batch is there. *)
Lemma pollingLoop_fetched
    (this : Telegraf) (fuel : nat) (updates : value) (w w1 : World) :
  polling_started w = true ->
  getUpdates this (polling_timeout w) (polling_limit w) (polling_offset w) w
  = (Ok (Resolved updates), w1) ->
  pollingLoop this (S fuel) w
  = try_catch
      (match updates with
       | VArr updates =>
           settled <- dispatch_all this updates ;;
           match settled with
           | Resolved _ => pollingLoop this fuel
           | Rejected err => throw err
           end
       | _ => throw TypeError
       end)
      (fun err =>
         console_error (PollingErrorLine err) ;; modify (set_started false))
      w1.
Proof.
  intros Hstarted Hfetch.
  simpl. unfold bind at 1, gets at 1. rewrite Hstarted. simpl.
  unfold bind at 1, gets at 1. unfold bind at 1, gets at 1.
  unfold bind at 1, gets at 1. unfold bind at 1. rewrite Hfetch.
  unfold bind at 1, ret at 1. reflexivity.
Qed.

Lemma pollingLoop_batch_done
    (this : Telegraf) (fuel : nat) (updates : list value)
    (w w1 w2 : World) :
  polling_started w = true ->
  getUpdates this (polling_timeout w) (polling_limit w) (polling_offset w) w
  = (Ok (Resolved (VArr updates)), w1) ->
  dispatch_all this updates w1 = (Ok (Resolved tt), w2) ->
  pollingLoop this (S fuel) w = pollingLoop this fuel w2.
Proof.
  intros Hstarted Hfetch Hall.
  destruct (getUpdates_returned _ _ _ _ _ _ _ Hfetch) as (Htok & _ & _).
  rewrite (pollingLoop_fetched this fuel _ w w1 Hstarted Hfetch).
  unfold try_catch, bind at 1. rewrite Hall.
  destruct (pollingLoop_returns this fuel w2 Htok) as [w' ->].
  reflexivity.
Qed.

(** X22. Stopping works at the next re-entry: a loop that finds
    [started] false fetches nothing and changes nothing, however long it
    may run; and when the dispatches of a batch have all succeeded and
    [started] was cleared meanwhile, the loop ends with the world they
    left; for a batch of one update that is the world its dispatch
    left. *)
Theorem pollingLoop_stops_at_reentry
    (this : Telegraf) (fuel : nat) (w : World) :
  (polling_started w = false -> pollingLoop this fuel w = (Ok tt, w))
  /\ (forall updates w1 w2,
         polling_started w = true ->
         getUpdates this (polling_timeout w) (polling_limit w)
           (polling_offset w) w = (Ok (Resolved (VArr updates)), w1) ->
         dispatch_all this updates w1 = (Ok (Resolved tt), w2) ->
         polling_started w2 = false ->
         pollingLoop this (S fuel) w = (Ok tt, w2))
  /\ (forall update w1 w2,
         polling_started w = true ->
         getUpdates this (polling_timeout w) (polling_limit w)
           (polling_offset w) w = (Ok (Resolved (VArr [update])), w1) ->
         handleUpdate this update false w1 = (Ok (Resolved tt), w2) ->
         polling_started w2 = false ->
         pollingLoop this (S fuel) w = (Ok tt, w2)).
Proof.
  split; [apply pollingLoop_stopped|].
  assert (Hall : forall updates w1 w2,
             polling_started w = true ->
             getUpdates this (polling_timeout w) (polling_limit w)
               (polling_offset w) w = (Ok (Resolved (VArr updates)), w1) ->
             dispatch_all this updates w1 = (Ok (Resolved tt), w2) ->
             polling_started w2 = false ->
             pollingLoop this (S fuel) w = (Ok tt, w2)).
  { intros updates w1 w2 Hstarted Hfetch Hdone Hstop.
    rewrite (pollingLoop_batch_done this fuel updates w w1 w2) by assumption.
    now apply pollingLoop_stopped. }
  split; [exact Hall|].
  intros update w1 w2 Hstarted Hfetch Hdone Hstop.
  apply Hall with (updates := [update]) (w1 := w1); try assumption.
  now rewrite dispatch_all_one.
Qed.

(** X23. A batch whose dispatches have all succeeded is followed at once
    by the next iteration, from the world the dispatches left.  For an
    empty batch that is the world of the fetch: same offset, same clock,
    one more call in the network log.  For a batch of one update it is
    the world the dispatch of that update left, and the next fetch asks
    from its [update_id] plus one. *)
Theorem pollingLoop_next_iteration
    (this : Telegraf) (fuel : nat) (updates : list value)
    (w w1 w2 : World) :
  polling_started w = true ->
  getUpdates this (polling_timeout w) (polling_limit w) (polling_offset w) w
  = (Ok (Resolved (VArr updates)), w1) ->
  dispatch_all this updates w1 = (Ok (Resolved tt), w2) ->
  pollingLoop this (S fuel) w = pollingLoop this fuel w2
  /\ (updates = [] ->
      w2 = w1
      /\ w1 = set_network
                (network w
                 ++ [fetch_of this
                       ("getUpdates?offset=" ++ ToString (polling_offset w)
                        ++ "&limit=" ++ ToString (polling_limit w)
                        ++ "&timeout=" ++ ToString (polling_timeout w))
                       None]) w)
  /\ (forall update,
         updates = [update] ->
         handleUpdate this update false w1 = (Ok (Resolved tt), w2)
         /\ polling_offset w2 = add (get update "update_id") (VNum 1)).
Proof.
  intros Hstarted Hfetch Hall.
  split; [now apply pollingLoop_batch_done with updates w1|]. split.
  - intros ->. unfold dispatch_all in Hall. simpl in Hall.
    unfold ret in Hall. injection Hall as <-.
    split; [reflexivity|].
    destruct (getUpdates_returned _ _ _ _ _ _ _ Hfetch) as (Htok & _ & _).
    unfold getUpdates in Hfetch.
    destruct (sendRequest_fetches this
                ("getUpdates?offset=" ++ ToString (polling_offset w)
                 ++ "&limit=" ++ ToString (polling_limit w)
                 ++ "&timeout=" ++ ToString (polling_timeout w))
                None false w Htok eq_refl) as [p Hp].
    rewrite Hp in Hfetch. now injection Hfetch as _ <-.
  - intros update ->. rewrite dispatch_all_one in Hall.
    split; [exact Hall|].
    now apply handleUpdate_resolved_offset in Hall.
Qed.

(** X24. A reply that is ok but whose result is not an array stops the
    loop: nothing is dispatched, the error is a TypeError, and [started]
    is false. *)
Theorem pollingLoop_result_not_an_array
    (this : Telegraf) (fuel : nat) (result : value) (w w1 : World) :
  polling_started w = true ->
  getUpdates this (polling_timeout w) (polling_limit w) (polling_offset w) w
  = (Ok (Resolved result), w1) ->
  (forall updates, result <> VArr updates) ->
  pollingLoop this (S fuel) w = (Ok tt, after_polling_error TypeError w1).
Proof.
  intros Hstarted Hfetch Hnot.
  rewrite (pollingLoop_fetched this fuel _ w w1 Hstarted Hfetch).
  destruct result; try reflexivity.
  exfalso. now apply (Hnot items).
Qed.

(** X25. An update of no recognised kind in a batch ends the batch, and
    with it the loop, on "Undefined update type": the updates after it
    are never dispatched, whatever they are, and the dispatches of the
    updates before it (updates that [handleUpdate] does not throw at) are
    under way when the loop stops.  When it comes first nothing is
    dispatched at all. *)
Theorem pollingLoop_unrecognised_update_ends_batch
    (this : Telegraf) (fuel : nat) (before after : list value) (o : obj)
    (w w1 : World) :
  polling_started w = true ->
  getUpdates this (polling_timeout w) (polling_limit w) (polling_offset w) w
  = (Ok (Resolved (VArr (before ++ VObj o :: after))), w1) ->
  (forall update, In update before -> thrown_at_once update = None) ->
  (forall k, In k updateTypes -> truthy (lookup o k) = false) ->
  pollingLoop this (S fuel) w
  = (Ok tt,
     after_polling_error (Error "Undefined update type")
       match before with
       | [] => w1
       | _ => in_flight
                (map (fun update => handleUpdate this update false) before) w1
       end).
Proof.
  intros Hstarted Hfetch Hbefore Hnone.
  rewrite (pollingLoop_fetched this fuel _ w w1 Hstarted Hfetch).
  unfold try_catch, bind at 1, dispatch_all.
  rewrite map_handleUpdate_thrown
    with (e := Error "Undefined update type").
  - destruct before; reflexivity.
  - exact Hbefore.
  - pose proof (handleUpdate_untyped this o false w1 Hnone) as H.
    destruct (thrown_at_once (VObj o)) as [e|] eqn:E.
    + rewrite (handleUpdate_thrown this (VObj o) false e w1 E) in H.
      now injection H as ->.
    + destruct (handleUpdate_started this (VObj o) false w1 E)
        as (p & w' & Hp).
      rewrite Hp in H. discriminate.
Qed.



(** X27. [startPolling] on a bot without token throws "Telegram Bot
    Token is required"; nothing is fetched, and [started] is left
    true. *)
Theorem startPolling_without_token
    (this : Telegraf) (timeout limit : value) (fuel : nat) (w : World) :
  truthy (token this) = false ->
  startPolling this timeout limit (S fuel) w
  = (Err (Error "Telegram Bot Token is required"),
     polling_set_up timeout limit w).
Proof.
  intros Htok. unfold startPolling, bind at 1, modify at 1.
  fold (polling_set_up timeout limit w).
  simpl pollingLoop. unfold bind at 1, gets at 1. simpl.
  unfold bind at 1, gets at 1. unfold bind at 1, gets at 1.
  unfold bind at 1, gets at 1. unfold bind at 1.
  unfold getUpdates, sendRequest, bind at 1, gets at 1. cbv zeta.
  simpl. rewrite Htok. reflexivity.
Qed.

(** ** Multipart bodies *)

Lemma form_parts_keys (options : obj) (key : string) (part : FormPart) :
  In part (form_parts options key) -> part_key part = key.
Proof.
  unfold form_parts. cbv zeta.
  destruct (nullish (lookup options key)); [intros []|].
  destruct (is_object (lookup options key)).
  - destruct (truthy (get (lookup options key) "source")); [|intros []].
    destruct (Buffer_isBuffer _); [intros [<-|[]]; reflexivity|].
    destruct (fs_existsSync _); intros [<-|[]]; reflexivity.
  - destruct (lookup options key); intros [<-|[]]; reflexivity.
Qed.

Lemma form_parts_sent (options : obj) (key : string) :
  form_parts options key <> [] <-> sent_in_form (lookup options key) = true.
Proof.
  unfold form_parts, sent_in_form. cbv zeta.
  destruct (nullish (lookup options key)); simpl; [split; congruence|].
  destruct (is_object (lookup options key)); simpl.
  - destruct (truthy (get (lookup options key) "source")).
    + split; [reflexivity|intros _].
      destruct (Buffer_isBuffer _); [discriminate|].
      destruct (fs_existsSync _); discriminate.
    + split; congruence.
  - split; [reflexivity|intros _].
    destruct (lookup options key); discriminate.
Qed.

Lemma form_parts_once (options : obj) (key : string) :
  (List.length (form_parts options key) <= 1)%nat.
Proof.
  unfold form_parts. cbv zeta.
  destruct (nullish (lookup options key)); [simpl; lia|].
  destruct (is_object (lookup options key)).
  - destruct (truthy (get (lookup options key) "source")); [|simpl; lia].
    destruct (Buffer_isBuffer _); [simpl; lia|].
    destruct (fs_existsSync _); simpl; lia.
  - destruct (lookup options key); simpl; lia.
Qed.

Lemma buildFormData_part_of (options : obj) (key : string) :
  (exists part, In part (buildFormData options) /\ part_key part = key)
  <-> In key (keys (stringify_markup options))
      /\ sent_in_form (lookup (stringify_markup options) key) = true.
Proof.
  unfold buildFormData. cbv zeta. split.
  - intros (part & Hin & Hkey). apply in_flat_map in Hin as (k & Hk & Hpart).
    pose proof (form_parts_keys _ _ _ Hpart) as Heq.
    rewrite Heq in Hkey. subst key. split; [exact Hk|].
    apply form_parts_sent. intros Hnil. now rewrite Hnil in Hpart.
  - intros [Hk Hsent]. apply form_parts_sent in Hsent.
    destruct (form_parts (stringify_markup options) key) as [|part parts]
      eqn:E; [congruence|].
    exists part. split.
    + apply in_flat_map. exists key. split; [exact Hk|].
      rewrite E. now left.
    + apply (form_parts_keys (stringify_markup options) key).
      rewrite E. now left.
Qed.

Lemma stringify_markup_keys (options : obj) (key : string) :
  In key (keys options) <-> In key (keys (stringify_markup options)).
Proof.
  unfold stringify_markup.
  destruct (truthy (lookup options "reply_markup")
            && negb (is_string (lookup options "reply_markup"))) eqn:E;
    [|split; auto].
  rewrite keys_assign.
  destruct (existsb (String.eqb "reply_markup") (keys options)) eqn:Ex;
    [split; auto|].
  apply andb_prop in E as [Ht _].
  exfalso.
  assert (Hnot : ~ In "reply_markup" (keys options)).
  { intros Hin.
    assert (Hyes : existsb (String.eqb "reply_markup") (keys options) = true).
    { apply existsb_exists. exists "reply_markup". split; [exact Hin|].
      apply String.eqb_refl. }
    congruence. }
  rewrite (lookup_absent _ _ Hnot) in Ht. discriminate.
Qed.

Lemma stringify_markup_lookup (options : obj) (key : string) :
  key <> "reply_markup" ->
  lookup (stringify_markup options) key = lookup options key.
Proof.
  intros Hne. unfold stringify_markup.
  destruct (truthy (lookup options "reply_markup")
            && negb (is_string (lookup options "reply_markup")));
    [|reflexivity].
  rewrite lookup_assign.
  destruct (String.eqb_spec "reply_markup" key); [congruence|reflexivity].
Qed.

(** X28. What a multipart body holds: an option other than
    [reply_markup] gives a part exactly when it is neither null nor
    undefined and is either no object or an object with a truthy
    [source]; so nested objects and arrays without [source] are left
    out.  Every part stands under the name of its option. *)
Theorem buildFormData_parts (options : obj) (key : string) :
  key <> "reply_markup" ->
  ((exists part, In part (buildFormData options) /\ part_key part = key)
   <-> In key (keys options) /\ sent_in_form (lookup options key) = true)
  /\ (forall part, In part (buildFormData options) ->
                   In (part_key part) (keys options)).
Proof.
  intros Hne. split.
  - rewrite buildFormData_part_of, <- stringify_markup_keys.
    now rewrite stringify_markup_lookup.
  - intros part Hin. apply (proj2 (stringify_markup_keys _ _)).
    apply (buildFormData_part_of options (part_key part)). eauto.
Qed.

(** X29. The [reply_markup] of a multipart body is text: a truthy
    [reply_markup] that is not a string is sent as the field holding
    its JSON text, even when it is an object with a [source]. *)
Theorem buildFormData_reply_markup (options : obj) (markup : value) :
  In "reply_markup" (keys options) ->
  lookup options "reply_markup" = markup ->
  truthy markup = true ->
  is_string markup = false ->
  In (Field "reply_markup" (VStr (JSON_stringify markup)))
    (buildFormData options)
  /\ forall part, In part (buildFormData options) ->
       part_key part = "reply_markup" ->
       part = Field "reply_markup" (VStr (JSON_stringify markup)).
Proof.
  intros Hin Hm Ht Hs.
  assert (Hparts : form_parts (stringify_markup options) "reply_markup"
                   = [Field "reply_markup" (VStr (JSON_stringify markup))]).
  { unfold form_parts, stringify_markup. rewrite Hm, Ht, Hs. cbn [andb negb].
    rewrite lookup_assign, String.eqb_refl. reflexivity. }
  split.
  - unfold buildFormData. cbv zeta. apply in_flat_map.
    exists "reply_markup".
    split; [exact (proj1 (stringify_markup_keys _ _) Hin)|].
    rewrite Hparts. now left.
  - intros part Hpart Hkey. unfold buildFormData in Hpart. cbv zeta in Hpart.
    apply in_flat_map in Hpart as (k & Hk & Hpart).
    pose proof (form_parts_keys _ _ _ Hpart) as Heq.
    rewrite Heq in Hkey. subst k.
    rewrite Hparts in Hpart. destruct Hpart as [<-|[]]. reflexivity.
Qed.

(** X30. A file request has a body: whenever [sendRequest] takes the
    options for a file request, the form built from them has a part. *)
Theorem buildFormData_of_file_request (options : obj) :
  isFileRequest options = true -> buildFormData options <> [].
Proof.
  intros Hfile. apply isFileRequest_spec in Hfile as (k & Hin & Hv & Hs).
  assert (Hsent : sent_in_form (lookup (stringify_markup options) k) = true).
  { destruct (String.eqb_spec k "reply_markup") as [->|Hne].
    - unfold stringify_markup. rewrite Hv.
      destruct (lookup options "reply_markup") eqn:E; try discriminate.
      cbn [is_string negb andb]. rewrite lookup_assign, String.eqb_refl.
      reflexivity.
    - rewrite stringify_markup_lookup by exact Hne.
      unfold sent_in_form. rewrite Hs.
      destruct (lookup options k); try discriminate; reflexivity. }
  destruct (proj2 (buildFormData_part_of options k)) as (part & Hpart & _).
  - split; [exact (proj1 (stringify_markup_keys _ _) Hin)|exact Hsent].
  - intros Hnil. now rewrite Hnil in Hpart.
Qed.

End Program.

(** ** The theorems on the concrete bot *)

(** An update with a message and a callback query is a callback query;
    a message with a text and a photo has the sub-type photo. *)
Lemma extractUpdate_last_match_wins_witness :
  (exists u,
      extractUpdate catalog_updateTypes catalog_messageSubTypes
        (VObj update_two_kinds) = inr u
      /\ type u = VStr "callback_query"
      /\ payload u = VObj [("id", VStr "q1")])
  /\ (exists u,
         extractUpdate catalog_updateTypes catalog_messageSubTypes
           (VObj update_41) = inr u
         /\ type u = VStr "message"
         /\ subType u = VStr "photo").
Proof.
  split.
  - destruct (extractUpdate_last_match_wins catalog_updateTypes
                catalog_messageSubTypes update_two_kinds
                ["message"; "edited_message"; "channel_post"]
                ["inline_query"; "chosen_inline_result"; "shipping_query";
                 "pre_checkout_query"] "callback_query")
      as (u & Hu & Ht & Hp & _).
    + reflexivity.
    + reflexivity.
    + intros k' H. each_member H.
    + exists u. repeat split; assumption.
  - destruct (extractUpdate_last_match_wins catalog_updateTypes
                catalog_messageSubTypes update_41
                []
                ["edited_message"; "channel_post"; "callback_query";
                 "inline_query"; "chosen_inline_result"; "shipping_query";
                 "pre_checkout_query"] "message")
      as (u & Hu & Ht & _ & Hsub).
    + reflexivity.
    + reflexivity.
    + intros k' H. each_member H.
    + exists u. repeat split; try assumption.
      apply (Hsub eq_refl ["text"; "audio"; "document"]
               ["sticker"; "video"; "voice"; "contact"; "location"] "photo").
      * reflexivity.
      * reflexivity.
      * intros m' H. each_member H.
Defined.

(** The body [{] on a bot with a quiet handler, and on the default bot. *)
Lemma webHookCallback_unparsable_body_witness :
  webHookCallback catalog_updateTypes catalog_messageSubTypes parse_known
    text_of sum_of_doubles ERR_HTTP_HEADERS_SENT (quiet_bot []) "/hook"
    {| req_method := "POST"; req_url := "/hook"; req_body := "{" |}
    None initial_world
  = (Ok tt,
     set_res (closed_with 415 fresh_response)
       (set_reported [SyntaxError "Unexpected end of JSON input"]
          initial_world))
  /\ webHookCallback catalog_updateTypes catalog_messageSubTypes parse_known
       text_of sum_of_doubles ERR_HTTP_HEADERS_SENT (bot []) EmptyString
       bad_request None initial_world
     = (Err (SyntaxError "Unexpected end of JSON input"),
        after_report (SyntaxError "Unexpected end of JSON input")
          initial_world).
Proof.
  split.
  - exact (proj1 (webHookCallback_unparsable_body catalog_updateTypes
                    catalog_messageSubTypes parse_known text_of
                    sum_of_doubles ERR_HTTP_HEADERS_SENT
                    (quiet_bot []) "/hook"
                    {| req_method := "POST"; req_url := "/hook";
                       req_body := "{" |}
                    None (SyntaxError "Unexpected end of JSON input")
                    initial_world eq_refl eq_refl eq_refl)
             (set_reported [SyntaxError "Unexpected end of JSON input"]
                initial_world)
             eq_refl).
  - apply (proj2 (webHookCallback_unparsable_body catalog_updateTypes
                    catalog_messageSubTypes parse_known text_of
                    sum_of_doubles ERR_HTTP_HEADERS_SENT
                    (bot []) EmptyString bad_request
                    None (SyntaxError "Unexpected end of JSON input")
                    initial_world eq_refl eq_refl eq_refl)).
    reflexivity.
Defined.

(** Update 41 moves the offset to 42. *)
Lemma handleUpdate_advances_offset_witness :
  polling_offset
    (snd (handleUpdate catalog_updateTypes catalog_messageSubTypes text_of
            sum_of_doubles
            (bot [recording "a"]) (VObj update_41) false initial_world))
  = VNum 42.
Proof.
  apply (handleUpdate_advances_offset catalog_updateTypes
           catalog_messageSubTypes text_of sum_of_doubles
           (bot [recording "a"]) (VObj update_41) false 41 initial_world).
  - reflexivity.
  - reflexivity.
  - reflexivity.
Defined.

(** In a webhook dispatch on the open response: a reply is the body of
    the response; a photo read from a file leaves the response alone and
    goes out as a form; and once the response is finished a reply is
    fetched as JSON. *)
Lemma sendRequest_answers_first_call_in_sink_witness :
  sendRequest json_of text_of remote_down no_buffer no_length on_disk
    size_on_disk (bot []) "sendMessage"
    (Some [("chat_id", VNum 99); ("text", VStr "pong")]) true initial_world
  = (Ok (Resolved VUndefined),
     set_res
       (answered fresh_response
          (json_of (VObj [("chat_id", VNum 99); ("text", VStr "pong");
                          ("method", VStr "sendMessage")])))
       initial_world)
  /\ (exists p call,
        sendRequest json_of text_of remote_down no_buffer no_length on_disk
          size_on_disk (bot []) "sendPhoto"
          (Some [("chat_id", VNum 99); ("photo", photo_upload)]) true
          initial_world
        = (Ok p, set_network [call] initial_world)
        /\ fetch_headers call = []
        /\ fetch_body call
           = FormData [Field "chat_id" (VNum 99);
                       StreamPart "photo" (VStr "/tmp/cat.png") (VNum 2048)])
  /\ (exists p call,
        sendRequest json_of text_of remote_down no_buffer no_length on_disk
          size_on_disk (bot []) "sendMessage"
          (Some [("chat_id", VNum 99); ("text", VStr "again")]) true
          (set_res (answered fresh_response "{}") initial_world)
        = (Ok p,
           set_network [call]
             (set_res (answered fresh_response "{}") initial_world))
        /\ fetch_body call
           = JsonText (json_of (VObj [("chat_id", VNum 99);
                                      ("text", VStr "again")]))).
Proof.
  pose (update := {| payload := text_message; type := VStr "message";
                     subType := VStr "text" |}).
  split; [|split].
  - apply (proj1 (sendRequest_answers_first_call_in_sink
                    json_of text_of remote_down no_buffer no_length on_disk
                    size_on_disk (bot []) update "sendMessage"
                    (Some [("chat_id", VNum 99); ("text", VStr "pong")])
                    initial_world eq_refl)).
    + reflexivity.
    + intros k H [_ Hs]. simpl in H.
      destruct H as [<- | [<- | []]]; vm_compute in Hs; discriminate Hs.
  - destruct (proj1 (proj2 (sendRequest_answers_first_call_in_sink
                              json_of text_of remote_down no_buffer
                              no_length on_disk size_on_disk (bot []) update
                              "sendPhoto"
                              (Some [("chat_id", VNum 99);
                                     ("photo", photo_upload)])
                              initial_world eq_refl)))
      as (_ & _ & Hfetch).
    + right. exists "photo". split; [simpl; auto|]. split; reflexivity.
    + destruct (Hfetch eq_refl) as (p & call & Hcall & _ & Hform & _).
      destruct Hform as [Hheaders Hbody].
      * exists "photo". split; [simpl; auto|]. split; reflexivity.
      * exists p, call. split; [exact Hcall|]. split; [exact Hheaders|].
        exact Hbody.
  - destruct (proj1 (proj2 (sendRequest_answers_first_call_in_sink
                              json_of text_of remote_down no_buffer
                              no_length on_disk size_on_disk (bot []) update
                              "sendMessage"
                              (Some [("chat_id", VNum 99);
                                     ("text", VStr "again")])
                              (set_res (answered fresh_response "{}")
                                 initial_world)
                              eq_refl)))
      as (_ & _ & Hfetch).
    + left. reflexivity.
    + destruct (Hfetch eq_refl) as (p & call & Hcall & _ & _ & Hjson).
      destruct Hjson as [_ Hbody].
      * intros k H [_ Hs]. simpl in H.
        destruct H as [<- | [<- | []]]; vm_compute in Hs; discriminate Hs.
      * exists p, call. split; [exact Hcall|]. exact Hbody.
Defined.



(** An update of a kind the catalog does not list. *)
Lemma handleUpdate_unrecognised_witness :
  handleUpdate catalog_updateTypes catalog_messageSubTypes text_of
    sum_of_doubles
    (bot [recording "a"])
    (VObj [("update_id", VNum 3); ("poll", VObj [("id", VStr "p")])])
    false initial_world
  = (Err (Error "Undefined update type"), initial_world).
Proof.
  apply (handleUpdate_unrecognised catalog_updateTypes
           catalog_messageSubTypes text_of sum_of_doubles
           (bot [recording "a"])
           [("update_id", VNum 3); ("poll", VObj [("id", VStr "p")])]
           false initial_world).
  intros k Hk [H | [H | []]]; simpl in H; subst k;
    simpl in Hk; repeat (destruct Hk as [Hk | Hk]; [discriminate|]);
    destruct Hk.
Defined.

(** A null message, and a message with an empty text. *)
Lemma extractUpdate_falsy_is_absent_witness :
  handleUpdate catalog_updateTypes catalog_messageSubTypes text_of
    sum_of_doubles
    (bot [recording "a"])
    (VObj [("update_id", VNum 3); ("message", VNull)])
    false initial_world
  = (Err (Error "Undefined update type"), initial_world)
  /\ (exists u u',
         extractUpdate catalog_updateTypes catalog_messageSubTypes
           (VObj [("message", VObj [("text", VStr EmptyString);
                                    ("sticker", VObj [])])]) = inr u
         /\ extractUpdate catalog_updateTypes catalog_messageSubTypes
              (VObj [("message", VObj [("sticker", VObj [])])]) = inr u'
         /\ type u = type u' /\ subType u = subType u').
Proof.
  split.
  - destruct (extractUpdate_falsy_is_absent catalog_updateTypes
                catalog_messageSubTypes text_of sum_of_doubles VNull
                (or_intror (or_intror (or_intror (or_introl eq_refl)))))
      as [Hkey _].
    apply (Hkey [("update_id", VNum 3); ("message", VNull)] "message").
    + reflexivity.
    + intros k' Hk' Hne [H | [H | []]]; simpl in H; subst k'.
      * simpl in Hk'.
        repeat (destruct Hk' as [Hk' | Hk']; [discriminate|]).
        destruct Hk'.
      * now apply Hne.
  - destruct (extractUpdate_falsy_is_absent catalog_updateTypes
                catalog_messageSubTypes text_of sum_of_doubles
                (VStr EmptyString) (or_intror (or_introl eq_refl)))
      as [_ Hsub].
    apply (Hsub [("message", VObj [("text", VStr EmptyString);
                                    ("sticker", VObj [])])]
             [("text", VStr EmptyString); ("sticker", VObj [])] "text");
      reflexivity.
Defined.

(** ** A webhook delivery, end to end

    A bot whose two handlers both reply: the first reply is the body of
    the webhook response, the second one is fetched; the dispatch
    succeeds and moves the offset to 42. *)
Example webhook_delivery_replies_twice :
  let options := bot [] in
  let this :=
    bot [replying json_of text_of remote_ok no_buffer no_length on_disk
           size_on_disk options "pong";
         replying json_of text_of remote_ok no_buffer no_length on_disk
           size_on_disk options "again"] in
  webHookCallback catalog_updateTypes catalog_messageSubTypes parse_known
    text_of sum_of_doubles ERR_HTTP_HEADERS_SENT this "/"
    {| req_method := "POST"; req_url := "/";
       req_body := json_of (VObj update_41) |}
    None initial_world
  = (Ok tt,
     set_offset (VNum 42)
       (set_network
          [{| fetch_url := apiRoot options ++ "/bot"
                           ++ text_of (token options) ++ "/sendMessage";
              fetch_headers := [("Content-Type", "application/json")];
              fetch_body :=
                JsonText (json_of (VObj [("chat_id", VNum 99);
                                         ("text", VStr "again")])) |}]
          (set_res
             (answered fresh_response
                (json_of (VObj [("chat_id", VNum 99); ("text", VStr "pong");
                                ("method", VStr "sendMessage")])))
             initial_world))).
Proof. vm_compute. reflexivity. Qed.

(** ** The further properties on the concrete bot *)

Lemma extractUpdate_single_key_witness :
  exists u,
    extractUpdate catalog_updateTypes catalog_messageSubTypes
      (VObj update_41) = inr u
    /\ type u = VStr "message"
    /\ payload u = text_message.
Proof.
  apply (extractUpdate_single_key catalog_updateTypes
           catalog_messageSubTypes update_41 "message").
  - simpl. auto.
  - reflexivity.
  - intros k' H Hne. simpl in H.
    repeat (destruct H as [<- | H];
            [first [reflexivity | exfalso; now apply Hne]|]).
    destruct H.
Defined.

Lemma extractUpdate_typed_payload_witness :
  (VStr "message" = VUndefined /\ text_message = VUndefined)
  \/ exists k, In k catalog_updateTypes /\ VStr "message" = VStr k
               /\ text_message = lookup update_41 k
               /\ truthy text_message = true.
Proof.
  apply (extractUpdate_typed_payload catalog_updateTypes
           catalog_messageSubTypes update_41
           {| payload := text_message; type := VStr "message";
              subType := VStr "photo" |}).
  reflexivity.
Defined.

(** A callback query has no sub-type; a callback query that comes with a
    top-level message has the sub-type of that message. *)
Lemma extractUpdate_subType_of_message_witness :
  (exists u,
      extractUpdate catalog_updateTypes catalog_messageSubTypes
        (VObj update_callback) = inr u
      /\ subType u = VUndefined)
  /\ (exists u,
         extractUpdate catalog_updateTypes catalog_messageSubTypes
           (VObj update_two_kinds) = inr u
         /\ subType u = VStr "photo").
Proof.
  split.
  - apply (proj1 (extractUpdate_subType_of_message catalog_updateTypes
                    catalog_messageSubTypes update_callback)).
    reflexivity.
  - apply (proj2 (extractUpdate_subType_of_message catalog_updateTypes
                    catalog_messageSubTypes update_two_kinds)
             ["text"; "audio"; "document"]
             ["sticker"; "video"; "voice"; "contact"; "location"] "photo").
    + reflexivity.
    + reflexivity.
    + reflexivity.
    + intros m' H. each_member H.
Defined.

Lemma handleUpdate_runs_in_registration_order_witness :
  handleUpdate catalog_updateTypes catalog_messageSubTypes text_of
    sum_of_doubles
    (use_each (map recording ["a"; "b"; "c"; "d"]) (bot []))
    (VObj update_41) false initial_world
  = (Ok (Resolved tt),
     set_offset (VNum 42)
       (set_trace [Enter "a"; Enter "b"; Enter "c"; Enter "d";
                   Exit "d"; Exit "c"; Exit "b"; Exit "a"]
          initial_world)).
Proof.
  apply (handleUpdate_runs_in_registration_order catalog_updateTypes
           catalog_messageSubTypes text_of sum_of_doubles
           (bot []) ["a"; "b"; "c"; "d"] update_41
           {| payload := text_message; type := VStr "message";
              subType := VStr "photo" |}
           false initial_world); reflexivity.
Defined.

Lemma handler_other_types_is_transparent_witness :
  compose ([recording "a"]
           ++ handler ["callback_query"] [recording "q"] :: [recording "b"])
    message_context None
  = compose ([recording "a"] ++ [recording "b"]) message_context None.
Proof.
  apply (handler_other_types_is_transparent ["callback_query"]
           [recording "q"] [recording "a"] [recording "b"] message_context
           None); reflexivity.
Defined.

Lemma handler_inner_chain_completes_first_witness :
  compose (handler ["photo"] (map recording ["i"] ++ [stopping "s"])
             :: map recording ["o"]) message_context None initial_world
  = (Ok tt,
     set_trace [Enter "i"; Enter "s"; Exit "s"; Exit "i";
                Enter "o"; Exit "o"] initial_world).
Proof.
  apply (handler_inner_chain_completes_first ["photo"] ["i"] ["o"] "s"
           message_context initial_world).
  reflexivity.
Defined.

Lemma isFileRequest_iff_witness :
  isFileRequest [("chat_id", VNum 99); ("photo", photo_upload)] = true.
Proof.
  apply (proj2 (proj1 (isFileRequest_iff
                         [("chat_id", VNum 99); ("photo", photo_upload)]))).
  exists "photo". repeat split. simpl. auto.
Defined.

(** A photo read from a file, sent with the open response at hand, is
    fetched as a form. *)
Lemma sendRequest_sink_or_one_fetch_witness :
  exists p,
    sendRequest json_of text_of remote_ok no_buffer no_length on_disk
      size_on_disk (bot []) "sendPhoto"
      (Some [("chat_id", VNum 99); ("photo", photo_upload)]) true
      initial_world
    = (Ok p,
       set_network
         [{| fetch_url := "https://api.telegram.org/bot"
                          ++ "110201543:AAHdqTcvCH1vGWJxfSeofSAs0K5PALDsaw"
                          ++ "/sendPhoto";
             fetch_headers := [];
             fetch_body :=
               FormData [Field "chat_id" (VNum 99);
                         StreamPart "photo" (VStr "/tmp/cat.png")
                           (VNum 2048)] |}]
         initial_world).
Proof.
  destruct (sendRequest_sink_or_one_fetch json_of text_of remote_ok
              no_buffer no_length on_disk size_on_disk
              (bot []) "sendPhoto"
              (Some [("chat_id", VNum 99); ("photo", photo_upload)]) true
              initial_world eq_refl)
    as [(_ & _ & H & _) | (_ & H)].
  - discriminate H.
  - exact H.
Defined.

Lemma sendRequest_without_token_witness :
  sendRequest json_of text_of remote_ok no_buffer no_length on_disk
    size_on_disk (tokenless_bot []) "getMe" None
    false initial_world
  = (Err (Error "Telegram Bot Token is required"), initial_world).
Proof.
  apply (proj1 (proj2 (sendRequest_without_token json_of text_of remote_ok
                         no_buffer no_length on_disk size_on_disk
                         (tokenless_bot []) "getMe" None false
                         initial_world eq_refl))).
  reflexivity.
Defined.

Lemma sendRequest_sink_body_witness :
  exists body,
    sendRequest json_of text_of remote_ok no_buffer no_length on_disk
      size_on_disk (bot []) "sendMessage"
      (Some [("method", VStr "spoofed"); ("chat_id", VNum 99)]) true
      initial_world
    = (Ok (Resolved VUndefined),
       set_res (answered fresh_response (json_of (VObj body)))
         initial_world)
    /\ lookup body "method" = VStr "sendMessage"
    /\ (forall k, k <> "method" ->
          lookup body k
          = lookup [("method", VStr "spoofed"); ("chat_id", VNum 99)] k)
    /\ keys body = ["method"; "chat_id"].
Proof.
  apply (sendRequest_sink_body json_of text_of remote_ok no_buffer no_length
           on_disk size_on_disk (bot [])
           "sendMessage" [("method", VStr "spoofed"); ("chat_id", VNum 99)]
           initial_world); reflexivity.
Defined.

Lemma sendMessage_extra_overrides_witness :
  exists options,
    sendMessage json_of text_of remote_ok no_buffer no_length on_disk
      size_on_disk (bot []) false (VNum 99)
      (VStr "hi") [("chat_id", VNum 7); ("parse_mode", VStr "Markdown")]
    = sendRequest json_of text_of remote_ok no_buffer no_length on_disk
        size_on_disk (bot []) "sendMessage"
        (Some options) false
    /\ lookup options "chat_id" = VNum 7
    /\ lookup options "text" = VStr "hi".
Proof.
  destruct (sendMessage_extra_overrides json_of text_of remote_ok no_buffer
              no_length on_disk size_on_disk (bot [])
              false (VNum 99) (VStr "hi")
              [("chat_id", VNum 7); ("parse_mode", VStr "Markdown")])
    as (options & Hcall & Hextra & _ & Htext).
  - repeat constructor; simpl; intuition discriminate.
  - exists options. split; [exact Hcall|]. split.
    + apply (Hextra "chat_id"). simpl. auto.
    + apply Htext. simpl. intuition discriminate.
Defined.

Lemma media_senders_upload_over_network_witness :
  sendPhoto json_of text_of remote_ok no_buffer no_length on_disk
    size_on_disk
    (bot []) true (VNum 99) photo_upload
    [] initial_world
  = sendPhoto json_of text_of remote_ok no_buffer no_length on_disk
      size_on_disk (bot []) false (VNum 99)
      photo_upload [] initial_world.
Proof.
  apply (proj1 (media_senders_upload_over_network json_of text_of remote_ok
                  no_buffer no_length on_disk size_on_disk
                  (bot []) (VNum 99) photo_upload [] initial_world
                  eq_refl)).
  intros [].
Defined.

Lemma handleUpdate_offset_without_id_witness :
  polling_offset
    (snd (handleUpdate catalog_updateTypes catalog_messageSubTypes text_of
            sum_of_doubles
            (bot []) (VObj [("message", text_message)]) false
            initial_world))
  = VNaN.
Proof.
  apply (proj1 (handleUpdate_offset_without_id catalog_updateTypes
                  catalog_messageSubTypes text_of sum_of_doubles (bot [])
                  [("message", text_message)] false initial_world
                  (snd (handleUpdate catalog_updateTypes
                          catalog_messageSubTypes text_of sum_of_doubles
                          (bot [])
                          (VObj [("message", text_message)]) false
                          initial_world))
                  eq_refl)).
  simpl. intros [H | []]. discriminate H.
Defined.

Lemma senders_leave_response_alone_witness :
  res (snd (sendRequest json_of text_of remote_ok no_buffer no_length
              on_disk size_on_disk (plain_bot [])
              "sendMessage" (Some [("chat_id", VNum 99)])
              (via_sink (build_context (plain_bot [])
                           {| payload := text_message;
                              type := VStr "message";
                              subType := VStr "photo" |} true))
              initial_world))
  = fresh_response.
Proof.
  apply (senders_leave_response_alone json_of text_of remote_ok no_buffer
           no_length on_disk size_on_disk
           (plain_bot [])
           {| payload := text_message; type := VStr "message";
              subType := VStr "photo" |}
           true "sendMessage" (Some [("chat_id", VNum 99)]) initial_world).
  left. reflexivity.
Defined.

(** The chat of a callback query is the chat of its message. *)
Lemma build_context_chat_witness :
  chat (build_context (bot [])
          {| payload := callback_query; type := VStr "callback_query";
             subType := VUndefined |} true)
  = VNum 99.
Proof.
  apply (proj1 (proj2 (build_context_chat (bot [])
                         {| payload := callback_query;
                            type := VStr "callback_query";
                            subType := VUndefined |} true)));
    reflexivity.
Defined.

Lemma handleUpdate_replies_in_response_witness :
  handleUpdate catalog_updateTypes catalog_messageSubTypes text_of
    sum_of_doubles
    (bot [replying json_of text_of remote_down no_buffer no_length on_disk
            size_on_disk (bot []) "pong"])
    (VObj update_41) true initial_world
  = (Ok (Resolved tt),
     set_offset (VNum 42)
       (set_res
          (answered fresh_response
             (json_of (VObj [("chat_id", VNum 99); ("text", VStr "pong");
                             ("method", VStr "sendMessage")])))
          initial_world)).
Proof.
  apply (handleUpdate_replies_in_response catalog_updateTypes
           catalog_messageSubTypes json_of text_of remote_down
           sum_of_doubles no_buffer no_length on_disk size_on_disk
           (bot [replying json_of text_of remote_down no_buffer no_length
                   on_disk size_on_disk (bot []) "pong"])
           (bot []) "pong" update_41
           {| payload := text_message; type := VStr "message";
              subType := VStr "photo" |}
           99 initial_world); try reflexivity.
  discriminate.
Defined.

Lemma webHookCallback_other_requests_witness :
  webHookCallback catalog_updateTypes catalog_messageSubTypes parse_known
    text_of sum_of_doubles ERR_HTTP_HEADERS_SENT (bot [recording "a"])
    "/hook"
    {| req_method := "GET"; req_url := "/hook";
       req_body := json_of (VObj update_41) |}
    None initial_world
  = (Ok tt, set_res (closed_with 403 fresh_response) initial_world).
Proof.
  destruct (webHookCallback_other_requests catalog_updateTypes
              catalog_messageSubTypes parse_known text_of sum_of_doubles
              ERR_HTTP_HEADERS_SENT
              (bot [recording "a"]) "/hook"
              {| req_method := "GET"; req_url := "/hook";
                 req_body := json_of (VObj update_41) |}
              initial_world) as [H _].
  - left. discriminate.
  - exact H.
Defined.

Lemma webHookCallback_always_answers_witness :
  finished
    (res (snd (webHookCallback catalog_updateTypes catalog_messageSubTypes
                 parse_known text_of sum_of_doubles ERR_HTTP_HEADERS_SENT
                 (quiet_bot []) EmptyString bad_request None
                 initial_world)))
  = true.
Proof.
  apply (proj1 (webHookCallback_always_answers catalog_updateTypes
                  catalog_messageSubTypes parse_known text_of sum_of_doubles
                  ERR_HTTP_HEADERS_SENT (quiet_bot [])
                  EmptyString bad_request initial_world
                  (snd (webHookCallback catalog_updateTypes
                          catalog_messageSubTypes parse_known text_of
                          sum_of_doubles ERR_HTTP_HEADERS_SENT
                          (quiet_bot []) EmptyString bad_request None
                          initial_world)))).
  reflexivity.
Defined.

Lemma webHookCallback_unrecognised_update_witness :
  webHookCallback catalog_updateTypes catalog_messageSubTypes parse_known
    text_of sum_of_doubles ERR_HTTP_HEADERS_SENT (quiet_bot [recording "a"])
    EmptyString
    {| req_method := "POST"; req_url := "/"; req_body := "{}" |}
    None initial_world
  = (Ok tt,
     set_res (closed_with 415 fresh_response)
       (set_reported [Error "Undefined update type"] initial_world)).
Proof.
  exact (webHookCallback_unrecognised_update catalog_updateTypes
           catalog_messageSubTypes parse_known text_of sum_of_doubles
           ERR_HTTP_HEADERS_SENT
           (quiet_bot [recording "a"]) EmptyString
           {| req_method := "POST"; req_url := "/"; req_body := "{}" |}
           None [] initial_world
           (set_reported [Error "Undefined update type"] initial_world)
           eq_refl eq_refl eq_refl (fun k _ => eq_refl) eq_refl).
Defined.

(** A handled update is answered 200.  When the first handler replies
    and the second throws, the client has the reply as its answer, and
    the error of [writeHead] is left uncaught. *)
Lemma webHookCallback_dispatch_status_witness :
  webHookCallback catalog_updateTypes catalog_messageSubTypes parse_known
    text_of sum_of_doubles ERR_HTTP_HEADERS_SENT (bot [recording "a"])
    EmptyString
    {| req_method := "POST"; req_url := "/";
       req_body := json_of (VObj update_41) |}
    None initial_world
  = (Ok tt,
     set_res (closed_with 200 fresh_response)
       (set_offset (VNum 42)
          (set_trace [Enter "a"; Exit "a"] initial_world)))
  /\ (let this :=
        bot [replying json_of text_of remote_down no_buffer no_length
               on_disk size_on_disk (bot []) "pong";
             throwing "b" (Error "boom")] in
      exists w1,
        webHookCallback catalog_updateTypes catalog_messageSubTypes
          parse_known text_of sum_of_doubles ERR_HTTP_HEADERS_SENT this
          EmptyString
          {| req_method := "POST"; req_url := "/";
             req_body := json_of (VObj update_41) |}
          None initial_world
        = (Err ERR_HTTP_HEADERS_SENT, w1)
        /\ res w1
           = answered fresh_response
               (json_of (VObj [("chat_id", VNum 99); ("text", VStr "pong");
                               ("method", VStr "sendMessage")]))).
Proof.
  split.
  - apply (proj1 (webHookCallback_dispatch_status catalog_updateTypes
                    catalog_messageSubTypes parse_known text_of
                    sum_of_doubles ERR_HTTP_HEADERS_SENT
                    (bot [recording "a"]) EmptyString
                    {| req_method := "POST"; req_url := "/";
                       req_body := json_of (VObj update_41) |}
                    None (VObj update_41) initial_world
                    (set_offset (VNum 42)
                       (set_trace [Enter "a"; Exit "a"] initial_world))
                    eq_refl eq_refl eq_refl));
      reflexivity.
  - intros this.
    exists (snd (handleUpdate catalog_updateTypes catalog_messageSubTypes
                   text_of sum_of_doubles this (VObj update_41) true
                   initial_world)).
    split; [|reflexivity].
    apply (proj2 (proj2 (proj2
             (webHookCallback_dispatch_status catalog_updateTypes
                catalog_messageSubTypes parse_known text_of sum_of_doubles
                ERR_HTTP_HEADERS_SENT
                this EmptyString
                {| req_method := "POST"; req_url := "/";
                   req_body := json_of (VObj update_41) |}
                None (VObj update_41) initial_world
                (snd (handleUpdate catalog_updateTypes
                        catalog_messageSubTypes text_of sum_of_doubles
                        this (VObj update_41) true
                        initial_world))
                eq_refl eq_refl eq_refl)))
             (Error "boom"));
      reflexivity.
Defined.

(** A bot that was not started fetches nothing. *)
Lemma pollingLoop_stops_at_reentry_witness :
  pollingLoop catalog_updateTypes catalog_messageSubTypes json_of text_of
    remote_ok sum_of_doubles no_buffer no_length on_disk size_on_disk
    in_turn run_to_the_end (bot []) 5 initial_world
  = (Ok tt, initial_world).
Proof.
  apply (proj1 (pollingLoop_stops_at_reentry catalog_updateTypes
                  catalog_messageSubTypes json_of text_of remote_ok
                  sum_of_doubles no_buffer no_length on_disk size_on_disk
                  in_turn run_to_the_end (bot [])
                  5 initial_world)).
  reflexivity.
Defined.

(** After the batch of update 41 the loop goes on from offset 42. *)
Lemma pollingLoop_next_iteration_witness :
  pollingLoop catalog_updateTypes catalog_messageSubTypes json_of text_of
    (remote_once [VObj update_41]) sum_of_doubles no_buffer no_length
    on_disk size_on_disk in_turn run_to_the_end (bot [recording "a"]) 3
    polling_world
  = pollingLoop catalog_updateTypes catalog_messageSubTypes json_of text_of
      (remote_once [VObj update_41]) sum_of_doubles no_buffer no_length
      on_disk size_on_disk in_turn run_to_the_end (bot [recording "a"]) 2
      (set_offset (VNum 42)
         (set_trace [Enter "a"; Exit "a"]
            (snd (getUpdates json_of text_of (remote_once [VObj update_41])
                    no_buffer no_length on_disk size_on_disk
                    (bot [recording "a"])
                    (VNum 0) (VNum 100) (VNum 0) polling_world)))).
Proof.
  apply (proj1 (pollingLoop_next_iteration catalog_updateTypes
                  catalog_messageSubTypes json_of text_of
                  (remote_once [VObj update_41]) sum_of_doubles no_buffer
                  no_length on_disk size_on_disk in_turn run_to_the_end
                  (bot [recording "a"]) 2
                  [VObj update_41] polling_world
                  (snd (getUpdates json_of text_of
                          (remote_once [VObj update_41]) no_buffer no_length
                          on_disk size_on_disk
                          (bot [recording "a"])
                          (VNum 0) (VNum 100) (VNum 0) polling_world))
                  (set_offset (VNum 42)
                     (set_trace [Enter "a"; Exit "a"]
                        (snd (getUpdates json_of text_of
                                (remote_once [VObj update_41]) no_buffer
                                no_length on_disk size_on_disk
                                (bot [recording "a"])
                                (VNum 0) (VNum 100) (VNum 0) polling_world))))
                  eq_refl eq_refl eq_refl)).
Defined.

Lemma pollingLoop_result_not_an_array_witness :
  pollingLoop catalog_updateTypes catalog_messageSubTypes json_of text_of
    remote_garbage sum_of_doubles no_buffer no_length on_disk size_on_disk
    in_turn run_to_the_end (bot [recording "a"]) 3 polling_world
  = (Ok tt,
     after_polling_error TypeError
       (snd (getUpdates json_of text_of remote_garbage no_buffer no_length
               on_disk size_on_disk (bot [recording "a"])
               (VNum 0) (VNum 100) (VNum 0) polling_world))).
Proof.
  apply (pollingLoop_result_not_an_array catalog_updateTypes
           catalog_messageSubTypes json_of text_of remote_garbage
           sum_of_doubles no_buffer no_length on_disk size_on_disk in_turn
           run_to_the_end
           (bot [recording "a"]) 2 VUndefined polling_world).
  - reflexivity.
  - reflexivity.
  - discriminate.
Defined.

(** An update of an unknown kind at the head of a batch: update 41, which
    follows it, is never dispatched, and nothing is recorded. *)
Lemma pollingLoop_unrecognised_update_ends_batch_witness :
  pollingLoop catalog_updateTypes catalog_messageSubTypes json_of text_of
    (remote_once [VObj update_unknown; VObj update_41]) sum_of_doubles
    no_buffer no_length on_disk size_on_disk in_turn run_to_the_end
    (bot [recording "a"]) 3 polling_world
  = (Ok tt,
     after_polling_error (Error "Undefined update type")
       (snd (getUpdates json_of text_of
               (remote_once [VObj update_unknown; VObj update_41]) no_buffer
               no_length on_disk size_on_disk
               (bot [recording "a"])
               (VNum 0) (VNum 100) (VNum 0) polling_world))).
Proof.
  apply (pollingLoop_unrecognised_update_ends_batch catalog_updateTypes
           catalog_messageSubTypes json_of text_of
           (remote_once [VObj update_unknown; VObj update_41])
           sum_of_doubles no_buffer no_length on_disk size_on_disk in_turn
           run_to_the_end
           (bot [recording "a"]) 2 [] [VObj update_41] update_unknown
           polling_world
           (snd (getUpdates json_of text_of
                   (remote_once [VObj update_unknown; VObj update_41])
                   no_buffer no_length on_disk size_on_disk
                   (bot [recording "a"])
                   (VNum 0) (VNum 100) (VNum 0) polling_world))).
  - reflexivity.
  - reflexivity.
  - intros update [].
  - intros k H. each_member H.
Defined.


Lemma startPolling_without_token_witness :
  startPolling catalog_updateTypes catalog_messageSubTypes json_of text_of
    remote_ok sum_of_doubles no_buffer no_length on_disk size_on_disk
    in_turn run_to_the_end (tokenless_bot []) VUndefined VUndefined 1
    initial_world
  = (Err (Error "Telegram Bot Token is required"),
     polling_set_up VUndefined VUndefined initial_world).
Proof.
  apply (startPolling_without_token catalog_updateTypes
           catalog_messageSubTypes json_of text_of remote_ok sum_of_doubles
           no_buffer no_length on_disk size_on_disk in_turn run_to_the_end
           (tokenless_bot []) VUndefined VUndefined 0 initial_world).
  reflexivity.
Defined.

(** The photo is sent; the array of tags is not. *)
Lemma buildFormData_parts_witness :
  (exists part,
      In part (buildFormData json_of no_buffer no_length on_disk
                 size_on_disk upload_options)
      /\ part_key part = "photo")
  /\ ~ (exists part,
          In part (buildFormData json_of no_buffer no_length on_disk
                     size_on_disk upload_options)
          /\ part_key part = "tags").
Proof.
  split.
  - apply (proj1 (buildFormData_parts json_of no_buffer no_length on_disk
                    size_on_disk upload_options "photo"
                    ltac:(discriminate))).
    split; [simpl; auto|reflexivity].
  - intros H.
    apply (proj1 (buildFormData_parts json_of no_buffer no_length on_disk
                    size_on_disk upload_options "tags"
                    ltac:(discriminate))) in H.
    destruct H as [_ H]. discriminate H.
Defined.

Lemma buildFormData_reply_markup_witness :
  In (Field "reply_markup"
        (VStr (json_of (VObj [("keyboard", VArr [])]))))
    (buildFormData json_of no_buffer no_length on_disk size_on_disk
       upload_options).
Proof.
  destruct (buildFormData_reply_markup json_of no_buffer no_length on_disk
              size_on_disk upload_options
              (VObj [("keyboard", VArr [])])) as [H _].
  - simpl. auto 6.
  - reflexivity.
  - reflexivity.
  - reflexivity.
  - exact H.
Defined.

Lemma buildFormData_of_file_request_witness :
  buildFormData json_of no_buffer no_length on_disk size_on_disk
    upload_options <> [].
Proof.
  apply (buildFormData_of_file_request json_of no_buffer no_length on_disk
           size_on_disk upload_options).
  reflexivity.
Defined.

(** The parts of the upload, in the order of the options. *)
Example buildFormData_upload :
  buildFormData json_of no_buffer no_length on_disk size_on_disk
    upload_options
  = [Field "chat_id" (VNum 99);
     StreamPart "photo" (VStr "/tmp/cat.png") (VNum 2048);
     Field "reply_markup" (VStr (json_of (VObj [("keyboard", VArr [])])))].
Proof. vm_compute. reflexivity. Qed.
